(** * Finance dashboard: the aggregation code of [Dashboard.tsx]

    A shallow embedding of the computations the [Dashboard] component of
    [frontend/src/components/Dashboard.tsx] performs on the list of score
    results, on the criteria and on the case metrics, and the properties of
    the specification that concern them.

    Conventions of the embedding.
    - A JavaScript [number] that arrives through JSON is a finite double; it
      is modelled as an exact rational ([Q]), so rounding is not modelled.
    - A field that may be missing or [null] is an [option]; the JavaScript
      [x || d] on such a field is [jsOr].
    - The object [individual_scores] is the list of its own entries in the
      order [Object.keys] enumerates them. The object [case_data] is the
      list of its own entries in the order of the JSON text it was parsed
      from; [Obj.entries] gives the order [Object.entries] enumerates them
      in, and [Obj.lookup] the property access with the members inherited
      from [Object.prototype].
    - Strings are [string], read as UTF-8. In the comparison views, which
      compare names and cells after lower-casing or trimming them, the
      builtins [toLowerCase] and [trim] are parameters of the model, as is
      [String] on a number. [JS.toLowerCase] is the lower-casing of ASCII
      strings; the default selection, which looks for three ASCII words,
      is written with it.
    - The [results] array is an object shared between the component and its
      caller; the part of the component that writes to it is modelled with
      explicit state passing over a [Store]. *)

From Stdlib Require Import List String Ascii Bool Arith ZArith QArith Lia Lqa.
From Stdlib Require Import Permutation Sorted DecimalString.
Import ListNotations.

Local Open Scope string_scope.
Local Open Scope Q_scope.
Local Open Scope list_scope.

(** ** JavaScript values and operators *)

Module JS.

(** The values a JSON payload can put in a metric cell. *)
Inductive value : Type :=
| VNull : value
| VNum : Q -> value
| VStr : string -> value.

(** [x || d] for a numeric field [x] that may be missing: [undefined],
    [null] and [0] are falsy, every other finite number is truthy. *)
Definition jsOr (x : option Q) (d : Q) : Q :=
  match x with
  | Some q => if Qeq_bool q 0 then d else q
  | None => d
  end.

(** [arr.reduce((sum, x) => sum + f(x), 0)]. *)
Definition reduce_sum {A : Type} (f : A -> Q) (arr : list A) : Q :=
  fold_left (fun sum x => sum + f x) arr 0.

(** [arr.filter(p).length]. *)
Definition filter_length {A : Type} (p : A -> bool) (arr : list A) : nat :=
  List.length (filter p arr).

(** [s.toLowerCase()] on ASCII. *)
Definition lower_ascii (c : ascii) : ascii :=
  let n := nat_of_ascii c in
  if (65 <=? n)%nat && (n <=? 90)%nat then ascii_of_nat (n + 32) else c.

Fixpoint toLowerCase (s : string) : string :=
  match s with
  | EmptyString => EmptyString
  | String c s' => String (lower_ascii c) (toLowerCase s')
  end.

(** [s.includes(t)]: [t] occurs in [s] as a contiguous substring. *)
Fixpoint includes (s t : string) : bool :=
  if String.prefix t s then true
  else match s with
       | EmptyString => false
       | String _ s' => includes s' t
       end.

(** Insertion of one element into an already ordered array, keeping it
    behind every element the comparator puts strictly before it. *)
Fixpoint sort_insert {A : Type} (cmp : A -> A -> Q) (x : A) (l : list A)
  : list A :=
  match l with
  | [] => [x]
  | y :: l' =>
      if Qle_bool (cmp x y) 0 then x :: y :: l'
      else y :: sort_insert cmp x l'
  end.

(** [arr.sort(cmp)]: ECMAScript requires the sort to be stable; for a
    consistent comparator the result is then determined, and it is the one
    insertion from the right computes. *)
Definition sort {A : Type} (cmp : A -> A -> Q) (arr : list A) : list A :=
  fold_right (sort_insert cmp) [] arr.

(** [arr.slice(0, n)]. *)
Definition slice0 {A : Type} (n : nat) (arr : list A) : list A := firstn n arr.

(** [arr.find(p)]. *)
Definition find {A : Type} (p : A -> bool) (arr : list A) : option A :=
  List.find p arr.

(** Own-property lookup [obj[k]] on an object given by its entries; [None]
    is [undefined]. Names that [Object.prototype] defines ([constructor],
    [toString], ...) are not modelled. *)
Fixpoint get {V : Type} (obj : list (string * V)) (k : string) : option V :=
  match obj with
  | [] => None
  | (k', v) :: rest => if String.eqb k' k then Some v else get rest k
  end.

(** [Object.keys(obj)]. *)
Definition keys {V : Type} (obj : list (string * V)) : list string :=
  map fst obj.

End JS.

(** ** The data the component receives *)

(** [ScoreResult] of [services/api.ts], with the [case_data] the comparison
    view reads. Fields the backend may leave out are options. *)
Record ScoreResult : Type := mkScoreResult {
  case_id : string;
  total_score : option Q;
  percentage : option Q;
  individual_scores : option (list (string * Q));
  eligibility_status : string;
  case_data : list (string * JS.value)
}.

(** One entry of a criterion's [scoring_intervals]. *)
Record Interval : Type := mkInterval {
  interval : option string;
  range : option string;
  condition : option string;
  score : Q
}.

(** A criterion as the component reads it. *)
Record Criterion : Type := mkCriterion {
  parameter : string;
  weight : option Q;
  min_value : option Q;
  scoring_intervals : option (list Interval)
}.

(** [result.percentage || 0], the reading every view uses. *)
Definition pct (result : ScoreResult) : Q := JS.jsOr (percentage result) 0.

(** ** Summary statistics (lines 141-149) *)

Definition totalCases (results : list ScoreResult) : nat := List.length results.

Definition avgScore (results : list ScoreResult) : Q :=
  if (0 <? List.length results)%nat
  then JS.reduce_sum pct results / inject_Z (Z.of_nat (List.length results))
  else 0.

Definition approvedCount (results : list ScoreResult) : nat :=
  JS.filter_length (fun r => String.eqb (eligibility_status r) "Eligible") results.

Definition rejectedCount (results : list ScoreResult) : nat :=
  JS.filter_length (fun r => String.eqb (eligibility_status r) "Not Eligible") results.

Definition reviewCount (results : list ScoreResult) : nat :=
  JS.filter_length (fun r => String.eqb (eligibility_status r) "Review Required") results.

(** The [data] of [statusPieData]: Eligible, Review Required, Not Eligible. *)
Definition statusPieData (results : list ScoreResult) : list nat :=
  [approvedCount results; reviewCount results; rejectedCount results].

(** ** Score distribution (lines 267-303) *)

(** The branch the [forEach] body takes for one score. *)
Definition binIndex (s : Q) : nat :=
  if Qle_bool s 20 then 0%nat
  else if Qle_bool s 40 then 1%nat
  else if Qle_bool s 60 then 2%nat
  else if Qle_bool s 80 then 3%nat
  else 4%nat.

(** [distribution[i]++]. *)
Fixpoint incrAt (i : nat) (distribution : list nat) : list nat :=
  match distribution, i with
  | [], _ => []
  | n :: rest, O => S n :: rest
  | n :: rest, S i' => n :: incrAt i' rest
  end.

(** The [data] array of [getScoreDistributionData]. *)
Definition getScoreDistributionData (results : list ScoreResult) : list nat :=
  fold_left (fun distribution result => incrAt (binIndex (pct result)) distribution)
            results [0; 0; 0; 0; 0]%nat.

(** ** Per-criterion views (lines 216-264) *)

(** [result.individual_scores?.[criteria] || 0]. *)
Definition scoreOf (criteria : string) (result : ScoreResult) : Q :=
  JS.jsOr (match individual_scores result with
           | Some scores => JS.get scores criteria
           | None => None
           end) 0.

(** [Object.keys(results[0]?.individual_scores || {})]. *)
Definition criteriaNames (results : list ScoreResult) : list string :=
  match results with
  | [] => []
  | first :: _ =>
      match individual_scores first with
      | Some scores => JS.keys scores
      | None => []
      end
  end.

Record Dataset : Type := mkDataset {
  label : string;
  data : list Q
}.

Record PerformanceData : Type := mkPerformanceData {
  perf_labels : list string;
  datasets : list Dataset
}.

(** [getCriteriaPerformanceData]; [None] is the [null] it returns. *)
Definition getCriteriaPerformanceData (results : list ScoreResult)
  : option PerformanceData :=
  if (List.length results =? 0)%nat then None
  else
    let names := criteriaNames results in
    Some {| perf_labels := map case_id results;
            datasets := map (fun criteria =>
                               {| label := criteria;
                                  data := map (scoreOf criteria) results |})
                            names |}.

Record RadarData : Type := mkRadarData {
  radar_labels : list string;
  avgScores : list Q
}.

(** [getRadarData]; [None] is the [null] it returns. *)
Definition getRadarData (results : list ScoreResult) : option RadarData :=
  if (List.length results =? 0)%nat then None
  else
    let names := criteriaNames results in
    Some {| radar_labels := names;
            avgScores := map (fun criteria =>
                                let scores := map (scoreOf criteria) results in
                                JS.reduce_sum (fun score => score) scores
                                / inject_Z (Z.of_nat (List.length scores)))
                             names |}.

(** ** Rendering, with the shared [results] array (lines 85, 506-509, 546) *)

(** The array [analysisResult.results], which the caller keeps and hands to
    every render. *)
Record Store : Type := mkStore { results_array : list ScoreResult }.

Definition Render (A : Type) : Type := Store -> A * Store.

Definition ret {A : Type} (a : A) : Render A := fun st => (a, st).

Definition bind {A B : Type} (m : Render A) (k : A -> Render B) : Render B :=
  fun st => let (a, st') := m st in k a st'.

Notation "x <- m ;; k" := (bind m (fun x => k))
  (at level 61, m at next level, right associativity).

(** Reading the array through the [results] reference. *)
Definition readResults : Render (list ScoreResult) :=
  fun st => (results_array st, st).

(** [results.sort(cmp)]: sorts the array in place and returns it. *)
Definition sortResults (cmp : ScoreResult -> ScoreResult -> Q)
  : Render (list ScoreResult) :=
  fun st => let sorted := JS.sort cmp (results_array st) in
            (sorted, {| results_array := sorted |}).

(** The comparator of the top-performers sort. *)
Definition byPercentageDesc (a b : ScoreResult) : Q := pct b - pct a.

Record View : Type := mkView {
  view_totalCases : nat;
  view_avgScore : Q;
  view_statusPie : list nat;
  view_caseScores : list (string * Q);
  view_criteriaPerformance : option PerformanceData;
  view_radar : option RadarData;
  view_scoreDistribution : list nat;
  view_topPerformers : list ScoreResult;
  view_detailedResults : list string
}.

(** One render of [Dashboard]: the chart data is computed from the array as
    it is on entry, then the markup is built in document order: the
    top-performers card sorts the array and slices it, and the results tab
    maps over the array after that. *)
Definition Dashboard : Render View :=
  results <- readResults ;;
  let total := totalCases results in
  let avg := avgScore results in
  let pie := statusPieData results in
  let caseScores := map (fun r => (case_id r, pct r)) results in
  let perf := getCriteriaPerformanceData results in
  let radar := getRadarData results in
  let distribution := getScoreDistributionData results in
  sorted <- sortResults byPercentageDesc ;;
  let top := JS.slice0 5 sorted in
  listed <- readResults ;;
  ret {| view_totalCases := total;
         view_avgScore := avg;
         view_statusPie := pie;
         view_caseScores := caseScores;
         view_criteriaPerformance := perf;
         view_radar := radar;
         view_scoreDistribution := distribution;
         view_topPerformers := top;
         view_detailedResults := map case_id listed |}.

(** The top-performers list a render shows for an array. *)
Definition topPerformers (results : list ScoreResult) : list ScoreResult :=
  view_topPerformers (fst (Dashboard {| results_array := results |})).

(** ** Objects parsed from JSON *)

Module Obj.

(** The value of a decimal digit. *)
Definition digit (c : ascii) : option N :=
  let n := N_of_ascii c in
  if (48 <=? n)%N && (n <=? 57)%N then Some (n - 48)%N else None.

(** The number a string of decimal digits denotes, after [acc]. *)
Fixpoint digits (acc : N) (s : string) : option N :=
  match s with
  | EmptyString => Some acc
  | String c s' =>
      match digit c with
      | Some d => digits (10 * acc + d)%N s'
      | None => None
      end
  end.

(** The array index a property key is, if it is one: a canonical numeric
    string (decimal, without a leading zero unless it is ["0"]) below
    [2^32 - 1]. *)
Definition arrayIndex (key : string) : option N :=
  match key with
  | EmptyString => None
  | String c rest =>
      if Ascii.eqb c "0" && negb (String.eqb rest "") then None
      else match digits 0 key with
           | Some n => if (n <? 4294967295)%N then Some n else None
           | None => None
           end
  end.

(** Insertion of an entry that is an array index among the entries that
    are, kept in ascending order of index. *)
Fixpoint insertByIndex {V : Type} (i : N) (entry : string * V)
  (sorted : list (N * (string * V))) : list (N * (string * V)) :=
  match sorted with
  | [] => [(i, entry)]
  | (j, entry') :: rest =>
      if (i <? j)%N then (i, entry) :: sorted
      else (j, entry') :: insertByIndex i entry rest
  end.

(** The entries whose key is an array index, in ascending order of index. *)
Definition indexed {V : Type} (obj : list (string * V)) : list (N * (string * V)) :=
  fold_right (fun entry sorted =>
                match arrayIndex (fst entry) with
                | Some i => insertByIndex i entry sorted
                | None => sorted
                end) [] obj.

(** [Object.entries(obj)] for an object given by its own entries in the
    order they were created (for an object parsed from JSON, the order of
    the text): the array indices in ascending order come first, the other
    keys follow in the order of creation. *)
Definition entries {V : Type} (obj : list (string * V)) : list (string * V) :=
  map snd (indexed obj)
  ++ filter (fun entry => match arrayIndex (fst entry) with
                          | Some _ => false
                          | None => true
                          end) obj.

(** The names of the members every object inherits from
    [Object.prototype]. *)
Definition prototypeMembers : list string :=
  ["constructor"; "hasOwnProperty"; "isPrototypeOf"; "propertyIsEnumerable";
   "toLocaleString"; "toString"; "valueOf"; "__proto__";
   "__defineGetter__"; "__defineSetter__"; "__lookupGetter__";
   "__lookupSetter__"].

Definition inherited (name : string) : bool :=
  existsb (String.eqb name) prototypeMembers.

(** What [obj[k]] evaluates to. *)
Inductive Property (V : Type) : Type :=
| OwnValue : V -> Property V
| InheritedMember : string -> Property V
| Undefined : Property V.

Arguments OwnValue {V} _.
Arguments InheritedMember {V} _.
Arguments Undefined {V}.

(** [obj[k]]: the own property, else the member of [Object.prototype] of
    that name, else [undefined]. *)
Definition lookup {V : Type} (obj : list (string * V)) (k : string) : Property V :=
  match JS.get obj k with
  | Some v => OwnValue v
  | None => if inherited k then InheritedMember k else Undefined
  end.

End Obj.

(** ** Metric resolution of the comparison view (lines 1169-1206) *)

(** [for (const [key, val] of Object.entries(caseData))
       if (test(key)) { value = val; break; }]. *)
Fixpoint scanEntries (test : string -> bool) (entries : list (string * JS.value))
  (value : JS.value) : JS.value :=
  match entries with
  | [] => value
  | (key, val) :: rest => if test key then val else scanEntries test rest value
  end.

(** What the variable [value] of the callback holds: a value of the JSON
    payload ([Val JS.VNull] is [null]) or a member of [Object.prototype]. *)
Inductive Cell : Type :=
| Val : JS.value -> Cell
| Member : string -> Cell.

Section Resolution.

(** [String.prototype.toLowerCase], on strings given in UTF-8. *)
Variable toLowerCase : string -> string.

(** The [value] the callback computes for one case, with the final
    [value !== null ? value : 'N/A']. [caseData] is the object
    [result.case_data] by its own entries in the order of the JSON text. *)
Definition resolveValue (selectedCriteria : string)
  (caseData : list (string * JS.value)) : Cell :=
  let value :=
    match Obj.lookup caseData selectedCriteria with
    | Obj.OwnValue v => Val v
    | Obj.InheritedMember member => Member member
    | Obj.Undefined =>
        let lowerCriteria := toLowerCase selectedCriteria in
        let value :=
          scanEntries (fun key => String.eqb (toLowerCase key) lowerCriteria)
                      (Obj.entries caseData) JS.VNull in
        match value with
        | JS.VNull =>
            Val (scanEntries (fun key =>
                                let keyLower := toLowerCase key in
                                JS.includes keyLower lowerCriteria
                                || JS.includes lowerCriteria keyLower)
                             (Obj.entries caseData) value)
        | _ => Val value
        end
    end in
  match value with
  | Val JS.VNull => Val (JS.VStr "N/A")
  | _ => value
  end.

(** The [value] column of [getComparisonData]; [None] is its [null]. *)
Definition getComparisonData (selectedCriteria : string)
  (results : list ScoreResult) : option (list Cell) :=
  if String.eqb selectedCriteria "" then None
  else if (List.length results =? 0)%nat then None
  else Some (map (fun result => resolveValue selectedCriteria (case_data result))
                 results).

End Resolution.

(** ** Ideal value and weight of a criterion (lines 95-115, 784-798) *)

(** [a || b] on strings that may be missing; the empty string is falsy. *)
Definition strOr (x : option string) (d : option string) : option string :=
  match x with
  | Some s => if String.eqb s "" then d else Some s
  | None => d
  end.

(** [interval.score === 10]. *)
Definition scoresTen (i : Interval) : bool := Qeq_bool (score i) 10.

(** The [bestInterval] of [criteriaForComparison]. *)
Definition comparisonBestInterval (c : Criterion) : option Interval :=
  match scoring_intervals c with
  | Some intervals =>
      hd_error (JS.sort (fun a b => score b - score a) (filter scoresTen intervals))
  | None => None
  end.

(** The [idealValue] of [criteriaForComparison]. *)
Definition comparisonIdealValue (c : Criterion) : string :=
  match comparisonBestInterval c with
  | Some bestInterval =>
      match strOr (range bestInterval)
                  (strOr (condition bestInterval) (Some "Best performance")) with
      | Some s => s
      | None => "N/A"
      end
  | None => "N/A"
  end.

(** [criteriaData.weight || 1]. *)
Definition comparisonWeight (c : Criterion) : Q := JS.jsOr (weight c) 1.

(** [intervals.reduce((best, current) =>
       current.score > best.score ? current : best)] on a non-empty array. *)
Definition highestInterval (first : Interval) (rest : list Interval) : Interval :=
  fold_left (fun best current =>
               if Qle_bool (score current) (score best) then best else current)
            rest first.

(** The interval the criteria tab takes the ideal value from. *)
Definition tabBestInterval (c : Criterion) : option Interval :=
  match scoring_intervals c with
  | Some (first :: rest) =>
      match JS.find scoresTen (first :: rest) with
      | Some bestInterval => Some bestInterval
      | None => Some (highestInterval first rest)
      end
  | _ => None
  end.

(** The [idealValue] of the criteria tab. *)
Definition tabIdealValue (c : Criterion) : option string :=
  match tabBestInterval c with
  | Some i => interval i
  | None => None
  end.

(** ** The specification's vocabulary *)

(** Sum and arithmetic mean of a list of numbers. *)
Definition sumQ (xs : list Q) : Q := fold_right Qplus 0 xs.

Definition mean (xs : list Q) : Q := sumQ xs / inject_Z (Z.of_nat (List.length xs)).

(** The five bins [[0,20]], [(20,40]], [(40,60]], [(60,80]], [(80,100]]. *)
Definition inBin (i : nat) (p : Q) : bool :=
  match i with
  | 0%nat => Qle_bool 0 p && Qle_bool p 20
  | 1%nat => negb (Qle_bool p 20) && Qle_bool p 40
  | 2%nat => negb (Qle_bool p 40) && Qle_bool p 60
  | 3%nat => negb (Qle_bool p 60) && Qle_bool p 80
  | 4%nat => negb (Qle_bool p 80) && Qle_bool p 100
  | _ => false
  end.

(** The three statuses the breakdown has a bucket for. *)
Definition knownStatus (s : string) : bool :=
  String.eqb s "Eligible" || String.eqb s "Review Required"
  || String.eqb s "Not Eligible".

(** The score of a parameter in a case, 0 when the case has none. *)
Definition parameterScore (criteria : string) (result : ScoreResult) : Q :=
  match individual_scores result with
  | Some scores =>
      match JS.get scores criteria with
      | Some s => s
      | None => 0
      end
  | None => 0
  end.

(** The keys of the first result's [individual_scores]. *)
Definition firstResultKeys (first : ScoreResult) : list string :=
  match individual_scores first with
  | Some scores => JS.keys scores
  | None => []
  end.

(** Outcome of the resolution of a criterion against a case's metrics. *)
Inductive Resolution : Type :=
| Found : JS.value -> Resolution
| NotFound : Resolution.

(** The value of the first metric, in order, whose key passes [test]. *)
Definition firstHit (test : string -> bool) (caseMetrics : list (string * JS.value))
  : option JS.value :=
  match List.find (fun entry => test (fst entry)) caseMetrics with
  | Some entry => Some (snd entry)
  | None => None
  end.

(** A [null] cell is no value. *)
Definition usable (hit : option JS.value) : option JS.value :=
  match hit with
  | Some JS.VNull => None
  | _ => hit
  end.

(** What the comparison view shows for a resolution. *)
Definition shown (r : Resolution) : Cell :=
  match r with
  | Found v => Val v
  | NotFound => Val (JS.VStr "N/A")
  end.

(** A string of ASCII characters only. *)
Fixpoint isAscii (s : string) : bool :=
  match s with
  | EmptyString => true
  | String c s' => (nat_of_ascii c <? 128)%nat && isAscii s'
  end.

(** A lower-casing that, as [String.prototype.toLowerCase] does, maps an
    ASCII string to the string with its letters A-Z replaced by a-z. *)
Definition lowersAscii (toLowerCase : string -> string) : Prop :=
  forall s, isAscii s = true -> toLowerCase s = JS.toLowerCase s.

Section Precedence.

Variable toLowerCase : string -> string.

(** The precedence as the specification states it: exact key, then key
    equal up to case, then containment in either direction (names compared
    up to case, as the example of ['Annual Revenue'] against ['revenue']
    needs), each scan taking the first hit among the case's metrics in the
    order they were inserted. *)
Definition resolve (caseMetrics : list (string * JS.value))
  (criterionParameter : string) : Resolution :=
  let name := toLowerCase criterionParameter in
  match firstHit (fun key => String.eqb key criterionParameter) caseMetrics with
  | Some v => Found v
  | None =>
      match firstHit (fun key => String.eqb (toLowerCase key) name) caseMetrics with
      | Some v => Found v
      | None =>
          match firstHit (fun key => JS.includes name (toLowerCase key)
                                     || JS.includes (toLowerCase key) name)
                         caseMetrics with
          | Some v => Found v
          | None => NotFound
          end
      end
  end.

(** The same precedence with the scans of the second and third step taken
    in the order of [Object.entries], and a [null] cell counted as no
    value: under the exact key it ends the resolution, in the second step
    it lets the third run, in the third it ends the resolution. *)
Definition resolveByEntries (caseMetrics : list (string * JS.value))
  (criterionParameter : string) : Resolution :=
  let name := toLowerCase criterionParameter in
  let enumerated := Obj.entries caseMetrics in
  match firstHit (fun key => String.eqb key criterionParameter) caseMetrics with
  | Some v => match usable (Some v) with
              | Some v' => Found v'
              | None => NotFound
              end
  | None =>
      match usable (firstHit (fun key => String.eqb (toLowerCase key) name)
                             enumerated) with
      | Some v => Found v
      | None =>
          match usable (firstHit (fun key => JS.includes name (toLowerCase key)
                                             || JS.includes (toLowerCase key) name)
                                 enumerated) with
          | Some v => Found v
          | None => NotFound
          end
      end
  end.

End Precedence.

(** ** Further string and array operations *)

Module Str.

(** The ASCII characters [trim] removes: TAB, LF, VT, FF, CR and space. *)
Definition isWhiteSpace (c : ascii) : bool :=
  let n := nat_of_ascii c in
  ((9 <=? n)%nat && (n <=? 13)%nat) || (n =? 32)%nat.

Fixpoint trimStartAscii (s : string) : string :=
  match s with
  | EmptyString => EmptyString
  | String c s' => if isWhiteSpace c then trimStartAscii s' else s
  end.

Fixpoint trimEndAscii (s : string) : string :=
  match s with
  | EmptyString => EmptyString
  | String c s' =>
      match trimEndAscii s' with
      | EmptyString => if isWhiteSpace c then EmptyString else String c EmptyString
      | t => String c t
      end
  end.

(** Removal of the ASCII white space at both ends: what [s.trim()] does on
    a string that has no other white space at its ends. It stands for the
    builtin in examples only; the model of the code takes [trim] as a
    parameter. *)
Definition trimAscii (s : string) : string := trimEndAscii (trimStartAscii s).

(** [s.endsWith(suffix)]. *)
Fixpoint endsWith (s suffix : string) : bool :=
  if String.eqb s suffix then true
  else match s with
       | EmptyString => false
       | String _ s' => endsWith s' suffix
       end.

(** The decimal digits of a natural number, as a template literal prints
    an array index. *)
Definition ofNat (n : nat) : string := NilEmpty.string_of_uint (Nat.to_uint n).

(** A string is truthy when it is not empty. *)
Definition truthy (s : string) : bool := negb (String.eqb s "").

End Str.

(** [arr.map((x, index) => f(x, index))]. *)
Fixpoint mapi_from {A B : Type} (f : A -> nat -> B) (index : nat) (arr : list A)
  : list B :=
  match arr with
  | [] => []
  | x :: rest => f x index :: mapi_from f (S index) rest
  end.

Definition mapi {A B : Type} (f : A -> nat -> B) (arr : list A) : list B :=
  mapi_from f 0 arr.

(** ** Colours and rates (lines 151-168, 191-213, 453, 609) *)

Definition getStatusColor (status : string) : string :=
  if String.eqb status "Eligible" then "bg-green-100 text-green-800"
  else if String.eqb status "Review Required" then "bg-yellow-100 text-yellow-800"
  else if String.eqb status "Not Eligible" then "bg-red-100 text-red-800"
  else "bg-gray-100 text-gray-800".

Definition getScoreColor (score : Q) : string :=
  if Qle_bool 80 score then "text-green-600"
  else if Qle_bool 60 score then "text-yellow-600"
  else "text-red-600".

Record BarData : Type := mkBarData {
  bar_labels : list string;
  bar_data : list Q;
  backgroundColor : list string;
  borderColor : list string
}.

(** [caseScoresData], the bar chart of the scores. *)
Definition caseScoresData (results : list ScoreResult) : BarData :=
  {| bar_labels := map case_id results;
     bar_data := map pct results;
     backgroundColor :=
       map (fun result =>
              let score := pct result in
              if Qle_bool 80 score then "#10B981"
              else if Qle_bool 60 score then "#F59E0B"
              else "#EF4444") results;
     borderColor :=
       map (fun result =>
              let score := pct result in
              if Qle_bool 80 score then "#059669"
              else if Qle_bool 60 score then "#D97706"
              else "#DC2626") results |}.

(** [(approvedCount / totalCases) * 100], 0 without cases: the number the
    cards format with [toFixed(1)]. *)
Definition approvalRate (results : list ScoreResult) : Q :=
  if (0 <? totalCases results)%nat
  then inject_Z (Z.of_nat (approvedCount results))
       / inject_Z (Z.of_nat (totalCases results)) * 100
  else 0.

(** ** The criteria of the comparison view (lines 90-139) *)

Module ComparisonCriterion.
Record t : Type := mk {
  name : string;
  weight : Q;
  idealValue : string
}.
End ComparisonCriterion.

(** [criteriaForComparison] for a criteria source given by its entries (the
    indices of an array, the keys of an object); the [description] of an
    entry is not modelled. *)
Definition criteriaForComparison (criteriaSource : list (string * Criterion))
  : list ComparisonCriterion.t :=
  if (List.length (JS.keys criteriaSource) =? 0)%nat then []
  else map (fun entry =>
              let '(name, criteriaData) := entry in
              {| ComparisonCriterion.name := name;
                 ComparisonCriterion.weight := comparisonWeight criteriaData;
                 ComparisonCriterion.idealValue := comparisonIdealValue criteriaData |})
           criteriaSource.

(** A name that, in lower case, mentions revenue, sales or turnover. *)
Definition mentionsRevenue (s : string) : bool :=
  JS.includes (JS.toLowerCase s) "revenue"
  || JS.includes (JS.toLowerCase s) "sales"
  || JS.includes (JS.toLowerCase s) "turnover".

(** The selection the effect of lines 121-139 leaves, from the selection it
    finds. *)
Definition selectDefaultCriteria (criteria : list Criterion)
  (comparison : list ComparisonCriterion.t) (selectedCriteria : string) : string :=
  let untouched := negb (Str.truthy selectedCriteria)
                   || String.eqb selectedCriteria "Revenue" in
  match criteria with
  | first :: _ =>
      if untouched then
        match JS.find (fun item => Str.truthy (parameter item)
                                   && mentionsRevenue (parameter item)) criteria with
        | Some revenueItem => parameter revenueItem
        | None => parameter first
        end
      else selectedCriteria
  | [] =>
      match comparison with
      | first :: _ =>
          if untouched then
            match JS.find (fun item => mentionsRevenue (ComparisonCriterion.name item))
                          comparison with
            | Some revenueItem => ComparisonCriterion.name revenueItem
            | None => ComparisonCriterion.name first
            end
          else selectedCriteria
      | [] => selectedCriteria
      end
  end.

(** ** The comparison view with its chart (lines 1149-1241) *)

Module CaseValue.
Record t : Type := mk {
  case : string;
  value : Cell;
  score : Q;
  status : string
}.
End CaseValue.

Module ComparisonChart.

Record ChartData : Type := mkChartData {
  labels : list string;
  data : list Q;
  backgroundColor : list string;
  borderColor : list string
}.

Record t : Type := mk {
  criteria : Criterion;
  cases : list CaseValue.t;
  minRequired : Q;
  chartData : ChartData
}.

(** A score result together with the [score] field the callback falls back
    on; [None] when the payload has none. *)
Record Result : Type := mkResult {
  result : ScoreResult;
  score : option Q
}.

Section WithLowerCase.

(** [String.prototype.toLowerCase]. *)
Variable toLowerCase : string -> string.

(** The criterion [criteria.find] returns for the selection. *)
Definition criteriaFromData (selectedCriteria : string) (criteria : list Criterion)
  : option Criterion :=
  JS.find (fun c => Str.truthy (parameter c)
                    && String.eqb (toLowerCase (parameter c))
                                  (toLowerCase selectedCriteria))
          criteria.

(** The callback of [resultsSource.map]. *)
Definition caseValue (selectedCriteria : string) (r : Result)
  (index : nat) : CaseValue.t :=
  {| CaseValue.case := "Case " ++ Str.ofNat (index + 1);
     CaseValue.value := resolveValue toLowerCase selectedCriteria
                          (case_data (result r));
     CaseValue.score := JS.jsOr (total_score (result r)) (JS.jsOr (score r) 0);
     CaseValue.status := if Str.truthy (eligibility_status (result r))
                         then eligibility_status (result r) else "Unknown" |}.

(** [typeof cv.value === 'number' ? cv.value : 0]. *)
Definition plotted (cv : CaseValue.t) : Q :=
  match CaseValue.value cv with
  | Val (JS.VNum q) => q
  | _ => 0
  end.

(** [getComparisonData] of the second variant; [None] is its [null]. *)
Definition getComparisonData (selectedCriteria : string)
  (criteriaList : list Criterion) (results : list Result) : option t :=
  if negb (Str.truthy selectedCriteria) then None
  else if (List.length results =? 0)%nat then None
  else
    let found := criteriaFromData selectedCriteria criteriaList in
    let minRequiredValue :=
      JS.jsOr (match found with Some c => min_value c | None => None end) 0 in
    let caseValues := mapi (caseValue selectedCriteria) results in
    Some {| criteria := match found with
                        | Some c => c
                        | None => mkCriterion selectedCriteria None None None
                        end;
            cases := caseValues;
            minRequired := minRequiredValue;
            chartData :=
              {| labels := "Required Minimum" :: map CaseValue.case caseValues;
                 data := minRequiredValue :: map plotted caseValues;
                 backgroundColor :=
                   "#3B82F6"
                   :: map (fun cv =>
                             if String.eqb (CaseValue.status cv) "Eligible"
                             then "#10B981"
                             else if String.eqb (CaseValue.status cv) "Review Required"
                             then "#F59E0B"
                             else "#EF4444") caseValues;
                 borderColor :=
                   "#2563EB"
                   :: map (fun cv =>
                             if String.eqb (CaseValue.status cv) "Eligible"
                             then "#059669"
                             else if String.eqb (CaseValue.status cv) "Review Required"
                             then "#D97706"
                             else "#DC2626") caseValues |} |}.

End WithLowerCase.

End ComparisonChart.

(** ** The comparison view read from [metric_scores] (lines 308-360) *)

Module MetricScore.
Record t : Type := mk {
  metric_name : option string;
  actual_value : JS.value;
  score : option Q
}.
End MetricScore.

Module CaseComparison.
Record t : Type := mk {
  caseName : string;
  actualValue : string;
  score : Q
}.
End CaseComparison.

Module MetricComparison.

(** A score result together with the [metric_scores] the backend adds;
    [None] when the field is missing or is no array. *)
Record Result : Type := mkResult {
  result : ScoreResult;
  metric_scores : option (list MetricScore.t)
}.

Record t : Type := mk {
  criterionName : string;
  requiredValueDisplay : string;
  caseComparisons : list CaseComparison.t
}.

Section WithBuiltins.

(** [String.prototype.toLowerCase] and [String.prototype.trim]. *)
Variable toLowerCase : string -> string.
Variable trim : string -> string.

(** [String(x)] for a number [x]. *)
Variable numberToString : Q -> string.

(** [String(v)]. *)
Definition toString (v : JS.value) : string :=
  match v with
  | JS.VNull => "null"
  | JS.VNum q => numberToString q
  | JS.VStr s => s
  end.

(** The predicate of [result.metric_scores.find]. *)
Definition matchesCriteria (lowerSelectedCriteria : string) (ms : MetricScore.t)
  : bool :=
  match MetricScore.metric_name ms with
  | Some metric_name =>
      if Str.truthy metric_name
      then String.eqb (trim (toLowerCase metric_name)) lowerSelectedCriteria
      else false
  | None => false
  end.

(** The callback of [resultsSource.map]. *)
Definition caseComparison (selectedCriteria : string) (r : Result) (index : nat)
  : CaseComparison.t :=
  let found :=
    match metric_scores r with
    | Some scores =>
        let lowerSelectedCriteria := trim (toLowerCase selectedCriteria) in
        JS.find (matchesCriteria lowerSelectedCriteria) scores
    | None => None
    end in
  let actualValueForCriterion :=
    match found with
    | Some matchedMetric =>
        match MetricScore.actual_value matchedMetric with
        | JS.VNull => "N/A"
        | v => if Str.truthy (trim (toString v)) then toString v else "N/A"
        end
    | None => "N/A"
    end in
  let scoreForCriterion :=
    match found with
    | Some matchedMetric => JS.jsOr (MetricScore.score matchedMetric) 0
    | None => 0
    end in
  {| CaseComparison.caseName :=
       if Str.truthy (case_id (result r)) then case_id (result r)
       else "Case " ++ Str.ofNat (index + 1);
     CaseComparison.actualValue := actualValueForCriterion;
     CaseComparison.score := scoreForCriterion |}.

(** [getComparisonData] of the first variant; [None] is its [null]. *)
Definition getComparisonData (selectedCriteria : string)
  (comparison : list ComparisonCriterion.t) (criteria : list Criterion)
  (resultsSource : list Result) : option t :=
  if negb (Str.truthy selectedCriteria) then None
  else if (List.length resultsSource =? 0)%nat then None
  else
    let idealDisplayValue :=
      match JS.find (fun c => String.eqb (ComparisonCriterion.name c) selectedCriteria)
                    comparison with
      | Some c => if Str.truthy (ComparisonCriterion.idealValue c)
                  then ComparisonCriterion.idealValue c else "N/A"
      | None => "N/A"
      end in
    let minRequiredValue :=
      match ComparisonChart.criteriaFromData toLowerCase selectedCriteria criteria with
      | Some c => min_value c
      | None => None
      end in
    let displayValueForRequired :=
      if negb (String.eqb idealDisplayValue "N/A") then idealDisplayValue
      else match minRequiredValue with
           | Some m => numberToString m
           | None => "N/A"
           end in
    Some {| criterionName := selectedCriteria;
            requiredValueDisplay := displayValueForRequired;
            caseComparisons := mapi (caseComparison selectedCriteria) resultsSource |}.

End WithBuiltins.

End MetricComparison.

(** ** The upload component *)

Module FileUpload.

(** What a [fetch] gives: a response that is [ok] with its JSON body, a
    response that is not, with its text, or a rejection with its message. *)
Inductive Response (A : Type) : Type :=
| Ok : A -> Response A
| NotOk : string -> Response A
| Rejected : string -> Response A.

Arguments Ok {A} _.
Arguments NotOk {A} _.
Arguments Rejected {A} _.

Record UploadResult : Type := mkUploadResult {
  file_id : string;
  sheets : option (list string)
}.

Record AnalysisRequest : Type := mkAnalysisRequest {
  request_file_id : string;
  criteria_sheet : string;
  cases_sheets : list string
}.

(** The requests [processExcelFile] sends. *)
Inductive Request : Type :=
| GetCriteria : string -> string -> Request
| GetCases : string -> string -> Request
| PostAnalyze : AnalysisRequest -> Request
| GetDashboard : string -> Request.

(** A computation that sends requests and may throw: the requests sent so
    far are threaded through, and a throw ends the computation. *)
Inductive Outcome (A : Type) : Type :=
| Done : A -> Outcome A
| Thrown : string -> Outcome A.

Arguments Done {A} _.
Arguments Thrown {A} _.

Definition Proc (A : Type) : Type := list Request -> list Request * Outcome A.

Definition pure {A : Type} (a : A) : Proc A := fun sent => (sent, Done a).

Definition throw {A : Type} (message : string) : Proc A :=
  fun sent => (sent, Thrown message).

Definition andThen {A B : Type} (m : Proc A) (k : A -> Proc B) : Proc B :=
  fun sent =>
    match m sent with
    | (sent', Done a) => k a sent'
    | (sent', Thrown message) => (sent', Thrown message)
    end.

Notation "x <-- m ;; k" := (andThen m (fun x => k))
  (at level 61, m at next level, right associativity).

Section WithBackend.

Variables CriteriaData Case AnalysisResult DashboardData : Type.

(** The backend, as the answers it gives to the four requests. *)
Variable getCriteria : string -> string -> Response CriteriaData.
Variable getCases : string -> string -> Response (list Case).
Variable analyze : AnalysisRequest -> Response AnalysisResult.
Variable getDashboard : string -> Response DashboardData.

(** [analysisResult.analysis_id]. *)
Variable analysis_id : AnalysisResult -> string.

(** [await fetch(...)]: the request is sent; a rejection is thrown. *)
Definition fetch {A : Type} (request : Request) (response : Response A)
  : Proc (Response A) :=
  fun sent =>
    match response with
    | Rejected message => (sent ++ [request], Thrown message)
    | _ => (sent ++ [request], Done response)
    end.

(** What [onUpload] receives. *)
Record Uploaded : Type := mkUploaded {
  uploadResult : UploadResult;
  criteriaData : CriteriaData;
  cases : list Case;
  analysisResult : AnalysisResult;
  dashboardData : DashboardData;
  uploaded_file_id : string;
  uploaded_analysis_id : string
}.

(** The loop over the case sheets: a sheet that is read adds its cases, a
    sheet whose response is not ok is passed over. *)
Fixpoint readCases (file : string) (casesSheets : list string)
  (allCases : list Case) : Proc (list Case) :=
  match casesSheets with
  | [] => pure allCases
  | sheet :: rest =>
      casesResponse <-- fetch (GetCases file sheet) (getCases file sheet) ;;
      match casesResponse with
      | Ok casesData => readCases file rest (allCases ++ casesData)
      | _ => readCases file rest allCases
      end
  end.

(** The body of the [try] of [processExcelFile]. *)
Definition processExcelFileBody (upload : UploadResult) : Proc Uploaded :=
  match sheets upload with
  | None | Some [] => throw "No sheets found in the Excel file"
  | Some (first :: casesSheets) =>
      criteriaResponse <-- fetch (GetCriteria (file_id upload) first)
                                 (getCriteria (file_id upload) first) ;;
      match criteriaResponse with
      | Ok criteria =>
          allCases <-- readCases (file_id upload) casesSheets [] ;;
          if (List.length allCases =? 0)%nat
          then throw "No case data found in the Excel file"
          else
            let request := {| request_file_id := file_id upload;
                              criteria_sheet := first;
                              cases_sheets := casesSheets |} in
            analysisResponse <-- fetch (PostAnalyze request) (analyze request) ;;
            match analysisResponse with
            | Ok analysis =>
                dashboardResponse <-- fetch (GetDashboard (analysis_id analysis))
                                            (getDashboard (analysis_id analysis)) ;;
                match dashboardResponse with
                | Ok dashboard =>
                    pure {| uploadResult := upload;
                            criteriaData := criteria;
                            cases := allCases;
                            analysisResult := analysis;
                            dashboardData := dashboard;
                            uploaded_file_id := file_id upload;
                            uploaded_analysis_id := analysis_id analysis |}
                | NotOk errorText =>
                    throw ("Failed to generate dashboard data: " ++ errorText)
                | Rejected message => throw message
                end
            | NotOk errorText => throw ("Failed to analyze the data: " ++ errorText)
            | Rejected message => throw message
            end
      | NotOk errorText =>
          throw ("Failed to read criteria from Excel file: " ++ errorText)
      | Rejected message => throw message
      end
  end.

(** [processExcelFile]: the requests it sends and what it ends with, the
    data given to [onUpload] or the message given to [setError]. *)
Definition processExcelFile (upload : UploadResult)
  : list Request * Outcome Uploaded :=
  processExcelFileBody upload [].

End WithBackend.

Arguments uploadResult {_ _ _ _} _.
Arguments criteriaData {_ _ _ _} _.
Arguments cases {_ _ _ _} _.
Arguments analysisResult {_ _ _ _} _.
Arguments dashboardData {_ _ _ _} _.
Arguments uploaded_file_id {_ _ _ _} _.
Arguments uploaded_analysis_id {_ _ _ _} _.

(** *** The progress of an upload *)

(** The state of the component, with the intervals that are set: every
    accepted drop sets one, named here by a number. *)
Record State : Type := mkState {
  uploadProgress : nat;
  uploadedFile : option string;
  error : option string;
  intervals : list nat;
  nextInterval : nat
}.

Definition initial : State :=
  {| uploadProgress := 0; uploadedFile := None; error := None;
     intervals := []; nextInterval := 0 |}.

(** The file name test of [onDrop]. *)
Definition excelName (name : string) : bool :=
  Str.endsWith name ".xlsx" || Str.endsWith name ".xls".

(** [clearInterval(id)]. *)
Definition clearInterval (id : nat) (ids : list nat) : list nat :=
  filter (fun id' => negb (Nat.eqb id' id)) ids.

(** What happens to the component: a drop, a run of the callback of an
    interval, the end of the upload a drop started (named by the interval of
    that drop), the failure of [processExcelFile], a click on the remove
    button. *)
Inductive Event : Type :=
| Drop : option string -> Event
| Tick : nat -> Event
| UploadFailed : string -> Event
| UploadSucceeded : nat -> Event
| ProcessFailed : string -> Event
| RemoveFile : Event.

Definition step (st : State) (e : Event) : State :=
  match e with
  | Drop None => st
  | Drop (Some name) =>
      if negb (excelName name)
      then {| uploadProgress := uploadProgress st;
              uploadedFile := uploadedFile st;
              error := Some "Please upload an Excel file (.xlsx or .xls)";
              intervals := intervals st;
              nextInterval := nextInterval st |}
      else {| uploadProgress := 0; uploadedFile := Some name; error := None;
              intervals := nextInterval st :: intervals st;
              nextInterval := S (nextInterval st) |}
  | Tick id =>
      if existsb (Nat.eqb id) (intervals st) then
        if (90 <=? uploadProgress st)%nat
        then {| uploadProgress := 90; uploadedFile := uploadedFile st;
                error := error st;
                intervals := clearInterval id (intervals st);
                nextInterval := nextInterval st |}
        else {| uploadProgress := uploadProgress st + 10;
                uploadedFile := uploadedFile st;
                error := error st;
                intervals := intervals st;
                nextInterval := nextInterval st |}
      else st
  | UploadFailed message =>
      {| uploadProgress := 0; uploadedFile := uploadedFile st;
         error := Some message;
         intervals := intervals st; nextInterval := nextInterval st |}
  | UploadSucceeded id =>
      {| uploadProgress := 100; uploadedFile := uploadedFile st;
         error := error st;
         intervals := clearInterval id (intervals st);
         nextInterval := nextInterval st |}
  | ProcessFailed message =>
      {| uploadProgress := 0; uploadedFile := uploadedFile st;
         error := Some message;
         intervals := intervals st; nextInterval := nextInterval st |}
  | RemoveFile =>
      {| uploadProgress := 0; uploadedFile := None; error := None;
         intervals := intervals st; nextInterval := nextInterval st |}
  end.

Definition run (st : State) (events : list Event) : State :=
  fold_left step events st.

End FileUpload.

(** ** Arithmetic helpers *)

Ltac qbool :=
  repeat match goal with
  | H : Qle_bool _ _ = true |- _ => apply Qle_bool_iff in H
  | H : Qle_bool _ _ = false |- _ =>
      apply not_true_iff_false in H; rewrite Qle_bool_iff in H;
      apply Qnot_le_lt in H
  | H : Qeq_bool _ _ = true |- _ => apply Qeq_bool_iff in H
  | H : Qeq_bool _ _ = false |- _ => apply Qeq_bool_neq in H
  end.

Ltac case_qle a b :=
  let E := fresh "E" in destruct (Qle_bool a b) eqn:E; qbool.

Lemma Qle_bool_false_lt (a b : Q) : Qle_bool a b = false <-> b < a.
Proof.
  split; intro H.
  - now qbool.
  - destruct (Qle_bool a b) eqn:E; [qbool; lra | reflexivity].
Qed.


Lemma reduce_sum_acc {A : Type} (f : A -> Q) (arr : list A) (acc : Q) :
  fold_left (fun sum x => sum + f x) arr acc == acc + sumQ (map f arr).
Proof.
  revert acc; induction arr as [|x arr IH]; intro acc; simpl.
  - ring.
  - rewrite IH. ring.
Qed.

Lemma reduce_sum_sumQ {A : Type} (f : A -> Q) (arr : list A) :
  JS.reduce_sum f arr == sumQ (map f arr).
Proof. unfold JS.reduce_sum. rewrite reduce_sum_acc. ring. Qed.


Lemma sumQ_app (xs ys : list Q) : sumQ (xs ++ ys) == sumQ xs + sumQ ys.
Proof.
  induction xs as [|x xs IH]; simpl; [ring|]. rewrite IH; ring.
Qed.

(** ** Average score *)

(** C6. The average score of an empty result list is 0, and the average
    score of a non-empty one is the arithmetic mean of the results'
    percentages; the division is only performed on a non-zero length. *)
Theorem avgScore_is_mean :
  avgScore [] = 0
  /\ forall (first : ScoreResult) (rest : list ScoreResult),
       avgScore (first :: rest) == mean (map pct (first :: rest))
       /\ ~ inject_Z (Z.of_nat (List.length (first :: rest))) == 0.
Proof.
  split; [reflexivity|].
  intros first rest; split.
  - unfold avgScore, mean. cbn [List.length Nat.ltb Nat.leb].
    rewrite reduce_sum_sumQ, length_map. reflexivity.
  - cbn [List.length]. unfold Qeq; simpl. lia.
Qed.

(** ** Eligibility breakdown *)

Lemma status_buckets_exclusive (s : string) :
  (Nat.b2n (String.eqb s "Eligible") + Nat.b2n (String.eqb s "Review Required")
   + Nat.b2n (String.eqb s "Not Eligible"))%nat = Nat.b2n (knownStatus s).
Proof.
  unfold knownStatus.
  destruct (String.eqb_spec s "Eligible") as [->|]; [reflexivity|].
  destruct (String.eqb_spec s "Review Required") as [->|]; [reflexivity|].
  destruct (String.eqb s "Not Eligible"); reflexivity.
Qed.

Lemma bucket_counts_known (results : list ScoreResult) :
  (approvedCount results + reviewCount results + rejectedCount results)%nat
  = JS.filter_length (fun r => knownStatus (eligibility_status r)) results.
Proof.
  unfold approvedCount, reviewCount, rejectedCount, JS.filter_length.
  induction results as [|r results IH]; [reflexivity|].
  cbn [filter].
  pose proof (status_buckets_exclusive (eligibility_status r)) as E.
  destruct (String.eqb (eligibility_status r) "Eligible"),
           (String.eqb (eligibility_status r) "Review Required"),
           (String.eqb (eligibility_status r) "Not Eligible"),
           (knownStatus (eligibility_status r));
    cbn [Nat.b2n] in E; cbn [List.length]; lia.
Qed.

Lemma filter_length_bound {A : Type} (p : A -> bool) (l : list A) :
  (JS.filter_length p l <= List.length l)%nat.
Proof. unfold JS.filter_length. apply List.filter_length_le. Qed.

Lemma filter_length_all {A : Type} (p : A -> bool) (l : list A) :
  JS.filter_length p l = List.length l <-> Forall (fun x => p x = true) l.
Proof.
  unfold JS.filter_length.
  induction l as [|x l IH]; cbn [filter].
  - split; [constructor | reflexivity].
  - pose proof (List.filter_length_le p l) as Hle.
    destruct (p x) eqn:E; cbn [List.length]; split; intro H.
    + constructor; [assumption | apply IH; lia].
    + inversion H; subst. f_equal. now apply IH.
    + lia.
    + inversion H; congruence.
Qed.

Lemma filter_length_app {A : Type} (p : A -> bool) (l1 l2 : list A) :
  JS.filter_length p (l1 ++ l2)
  = (JS.filter_length p l1 + JS.filter_length p l2)%nat.
Proof. unfold JS.filter_length. now rewrite filter_app, length_app. Qed.

Lemma unknown_status_no_bucket (s : string) :
  knownStatus s = false ->
  String.eqb s "Eligible" = false /\ String.eqb s "Review Required" = false
  /\ String.eqb s "Not Eligible" = false.
Proof.
  unfold knownStatus; intro H.
  apply orb_false_iff in H as [H H3]. apply orb_false_iff in H as [H1 H2].
  auto.
Qed.

(** C10. Every result is counted in at most one of the three buckets; the
    three counts never exceed the number of cases and add up to it exactly
    when every status is one of the three strings; a result with any other
    status is counted in the total and enters the average score, and is in
    no bucket. *)
Theorem eligibility_breakdown_buckets (results : list ScoreResult) :
  (forall r, In r results ->
     (Nat.b2n (String.eqb (eligibility_status r) "Eligible")
      + Nat.b2n (String.eqb (eligibility_status r) "Review Required")
      + Nat.b2n (String.eqb (eligibility_status r) "Not Eligible") <= 1)%nat)
  /\ (approvedCount results + reviewCount results + rejectedCount results
      <= totalCases results)%nat
  /\ ((approvedCount results + reviewCount results + rejectedCount results)%nat
      = totalCases results
      <-> Forall (fun r => knownStatus (eligibility_status r) = true) results)
  /\ (forall before r after,
        results = before ++ r :: after ->
        knownStatus (eligibility_status r) = false ->
        statusPieData results = statusPieData (before ++ after)
        /\ totalCases results = S (totalCases (before ++ after))
        /\ avgScore results * inject_Z (Z.of_nat (totalCases results))
           == sumQ (map pct (before ++ after)) + pct r).
Proof.
  repeat split.
  - intros r _. rewrite status_buckets_exclusive.
    destruct (knownStatus (eligibility_status r)); simpl; lia.
  - rewrite bucket_counts_known. apply filter_length_bound.
  - rewrite bucket_counts_known. apply filter_length_all.
  - rewrite bucket_counts_known. apply filter_length_all.
  - subst results.
    apply unknown_status_no_bucket in H0 as (H1 & H2 & H3).
    unfold statusPieData, approvedCount, reviewCount, rejectedCount.
    rewrite !filter_length_app. unfold JS.filter_length at 2 4 6 8 10 12.
    cbn [filter]. rewrite H1, H2, H3. reflexivity.
  - subst results. unfold totalCases. rewrite !length_app. simpl. lia.
  - subst results. unfold avgScore, totalCases.
    rewrite length_app. cbn [List.length].
    replace (List.length before + S (List.length after))%nat
      with (S (List.length before + List.length after)) by lia.
    cbn [Nat.ltb Nat.leb].
    rewrite reduce_sum_sumQ, !map_app, !sumQ_app. cbn [map].
    unfold sumQ; cbn [fold_right].
    set (n := inject_Z (Z.of_nat (S (List.length before + List.length after)))).
    assert (Hn : ~ n == 0) by (unfold n, Qeq; simpl; lia).
    field. exact Hn.
Qed.

(** ** Score distribution *)

Lemma incrAt_length (i : nat) (d : list nat) :
  List.length (incrAt i d) = List.length d.
Proof.
  revert i; induction d as [|n d IH]; intros [|i]; simpl; auto.
Qed.

Lemma incrAt_nth (i j : nat) (d : list nat) :
  (i < List.length d)%nat ->
  nth j (incrAt i d) 0%nat = (nth j d 0 + Nat.b2n (Nat.eqb i j))%nat.
Proof.
  revert i j; induction d as [|n d IH]; intros i j Hi; simpl in Hi; [lia|].
  destruct i as [|i], j as [|j]; simpl; try lia.
  apply IH; lia.
Qed.

Lemma incrAt_sum (i : nat) (d : list nat) :
  (i < List.length d)%nat -> list_sum (incrAt i d) = S (list_sum d).
Proof.
  revert i; induction d as [|n d IH]; intros i Hi; simpl in Hi; [lia|].
  destruct i as [|i]; simpl; [lia|]. rewrite IH; lia.
Qed.

Lemma binIndex_lt (s : Q) : (binIndex s < 5)%nat.
Proof.
  unfold binIndex.
  repeat match goal with |- context [Qle_bool ?a ?b] => destruct (Qle_bool a b) end;
    lia.
Qed.

(** The loop of [getScoreDistributionData], from any five counters. *)
Lemma distribution_loop (results : list ScoreResult) (d : list nat) :
  List.length d = 5%nat ->
  let d' := fold_left (fun distribution result =>
                         incrAt (binIndex (pct result)) distribution) results d in
  List.length d' = 5%nat
  /\ list_sum d' = (list_sum d + List.length results)%nat
  /\ forall i, nth i d' 0%nat
               = (nth i d 0
                  + JS.filter_length (fun r => Nat.eqb (binIndex (pct r)) i) results)%nat.
Proof.
  revert d; induction results as [|r results IH]; intros d Hd; cbn zeta.
  - simpl. repeat split; auto; intros; unfold JS.filter_length; simpl; lia.
  - cbn [fold_left].
    pose proof (binIndex_lt (pct r)) as Hb.
    specialize (IH (incrAt (binIndex (pct r)) d)).
    rewrite incrAt_length in IH. specialize (IH Hd). cbn zeta in IH.
    destruct IH as (IH1 & IH2 & IH3). repeat split; auto.
    + rewrite IH2, incrAt_sum by lia. simpl. lia.
    + intro i. rewrite IH3, incrAt_nth by lia.
      unfold JS.filter_length. cbn [filter].
      destruct (Nat.eqb (binIndex (pct r)) i); simpl; lia.
Qed.

Lemma inBin_binIndex (p : Q) (i : nat) :
  0 <= p <= 100 -> inBin i p = Nat.eqb (binIndex p) i.
Proof.
  intros [H0 H100]. unfold binIndex.
  case_qle p 20; [|case_qle p 40; [|case_qle p 60; [|case_qle p 80]]];
    do 5 (try destruct i as [|i]); cbn [inBin Nat.eqb negb andb];
    repeat match goal with
    | |- context [Qle_bool ?a ?b] =>
        let E' := fresh "E" in destruct (Qle_bool a b) eqn:E'; qbool
    end; cbn [negb andb]; try reflexivity; try lra.
Qed.

Lemma nth_zeros (i : nat) : nth i [0; 0; 0; 0; 0]%nat 0%nat = 0%nat.
Proof. do 6 (try destruct i as [|i]); reflexivity. Qed.

(** C1. The five counts always add up to the number of cases. Every result
    goes to one counter; for a percentage in the range [[0,100]] that every
    score result has, the counter it goes to is the one of the only bin
    among [[0,20]], [(20,40]], [(40,60]], [(60,80]], [(80,100]] that
    contains it, so that each count is the number of results in its bin. *)
Theorem score_distribution_bins (results : list ScoreResult) :
  List.length (getScoreDistributionData results) = 5%nat
  /\ list_sum (getScoreDistributionData results) = totalCases results
  /\ (forall i, nth i (getScoreDistributionData results) 0%nat
                = JS.filter_length (fun r => Nat.eqb (binIndex (pct r)) i) results)
  /\ (forall r, In r results -> 0 <= pct r <= 100 ->
        (binIndex (pct r) < 5)%nat
        /\ forall i, inBin i (pct r) = true <-> i = binIndex (pct r))
  /\ (Forall (fun r => 0 <= pct r <= 100) results ->
      forall i, nth i (getScoreDistributionData results) 0%nat
                = JS.filter_length (fun r => inBin i (pct r)) results).
Proof.
  destruct (distribution_loop results [0; 0; 0; 0; 0]%nat eq_refl)
    as (Hlen & Hsum & Hnth).
  fold (getScoreDistributionData results) in Hlen, Hsum, Hnth.
  repeat split.
  - exact Hlen.
  - exact Hsum.
  - intro i. rewrite Hnth, nth_zeros. reflexivity.
  - apply binIndex_lt.
  - intro Hi. rewrite inBin_binIndex in Hi by assumption.
    symmetry. now apply Nat.eqb_eq.
  - intros ->. rewrite inBin_binIndex by assumption. apply Nat.eqb_refl.
  - intros Hrange i. rewrite Hnth, nth_zeros.
    unfold JS.filter_length. cbn [Nat.add]. f_equal.
    apply filter_ext_in. intros r Hr. symmetry. apply inBin_binIndex.
    rewrite Forall_forall in Hrange. now apply Hrange.
Qed.

(** Scenario C: percentages 85 and 55 are counted in the last and in the
    third bin. *)
Lemma score_distribution_bins_witness :
  let r85 := mkScoreResult "case-1" (Some 85) (Some 85) None "Eligible" [] in
  let r55 := mkScoreResult "case-2" (Some 55) (Some 55) None "Not Eligible" [] in
  getScoreDistributionData [r85; r55] = [0; 0; 1; 0; 1]%nat
  /\ forall i, nth i (getScoreDistributionData [r85; r55]) 0%nat
               = JS.filter_length (fun r => inBin i (pct r)) [r85; r55].
Proof.
  cbv zeta. split; [reflexivity|].
  apply (proj2 (proj2 (proj2 (proj2 (score_distribution_bins _))))).
  repeat constructor; vm_compute; discriminate.
Defined.

(** Outside [[0,100]] the chain of comparisons still picks a counter: the
    first below 0, the last above 100. *)
Lemma binIndex_out_of_range (p : Q) :
  (p < 0 -> binIndex p = 0%nat) /\ (100 < p -> binIndex p = 4%nat).
Proof.
  unfold binIndex; split; intro H;
    repeat match goal with
    | |- context [Qle_bool ?a ?b] =>
        let E' := fresh "E" in destruct (Qle_bool a b) eqn:E'; qbool
    end; try reflexivity; lra.
Qed.

(** ** Per-parameter views *)




(** C9. Without results neither per-parameter view is produced. With
    results, the parameters of the radar view and of the criteria
    performance view are, in order, the keys of the first result's
    [individual_scores]; so a parameter that only later results score is in
    neither view. *)
Theorem parameter_views_follow_first_result :
  getRadarData [] = None
  /\ getCriteriaPerformanceData [] = None
  /\ forall (first : ScoreResult) (rest : list ScoreResult),
       exists radar perf,
         getRadarData (first :: rest) = Some radar
         /\ getCriteriaPerformanceData (first :: rest) = Some perf
         /\ radar_labels radar = firstResultKeys first
         /\ map label (datasets perf) = firstResultKeys first
         /\ forall criteria,
              ~ In criteria (firstResultKeys first) ->
              ~ In criteria (radar_labels radar)
              /\ ~ In criteria (map label (datasets perf)).
Proof.
  split; [reflexivity|]. split; [reflexivity|].
  intros first rest.
  unfold getRadarData, getCriteriaPerformanceData.
  cbn [List.length Nat.eqb].
  do 2 eexists. split; [reflexivity|]. split; [reflexivity|].
  cbn [radar_labels datasets criteriaNames]. fold (firstResultKeys first).
  rewrite map_map. cbn [label]. rewrite map_id.
  repeat split; auto.
Qed.

(** A parameter only the second case scores is in neither view, although
    the case has a score for it. *)
Example later_parameter_omitted :
  let a := mkScoreResult "A" (Some 5) (Some 50) (Some [("Revenue", 5)]) "Not Eligible" [] in
  let b := mkScoreResult "B" (Some 9) (Some 90)
             (Some [("Revenue", 9); ("Profit", 7)]) "Eligible" [] in
  option_map radar_labels (getRadarData [a; b]) = Some ["Revenue"]
  /\ option_map (fun perf => map label (datasets perf))
       (getCriteriaPerformanceData [a; b]) = Some ["Revenue"]
  /\ parameterScore "Profit" b = 7.
Proof. repeat split. Qed.

(** ** Sorting by a numeric key, descending *)

Section SortByKey.

Variable A : Type.
Variable key : A -> Q.

(** The comparator [(a, b) => key(b) - key(a)]. *)
Let cmp : A -> A -> Q := fun a b => key b - key a.

(** [a] may stand before [b] in a descending order. *)
Let desc : A -> A -> Prop := fun a b => key b <= key a.

(** The elements whose key is [p], in the order of the list. *)
Let withKey (p : Q) (l : list A) : list A :=
  filter (fun a => Qeq_bool (key a) p) l.

Lemma sort_insert_perm (x : A) (l : list A) :
  Permutation (JS.sort_insert cmp x l) (x :: l).
Proof.
  induction l as [|y l IH]; simpl; [reflexivity|].
  destruct (Qle_bool (cmp x y) 0); [reflexivity|].
  rewrite IH. apply perm_swap.
Qed.

Lemma sort_perm (l : list A) : Permutation (JS.sort cmp l) l.
Proof.
  induction l as [|x l IH]; simpl; [reflexivity|].
  fold (JS.sort cmp l). rewrite sort_insert_perm. now constructor.
Qed.

Lemma sort_insert_sorted (x : A) (l : list A) :
  StronglySorted desc l -> StronglySorted desc (JS.sort_insert cmp x l).
Proof.
  induction 1 as [|y l Hl IH Hy]; simpl.
  - repeat constructor.
  - destruct (Qle_bool (cmp x y) 0) eqn:E; unfold cmp in E; qbool.
    + constructor; [now constructor|].
      constructor.
      * unfold desc; lra.
      * eapply Forall_impl; [|exact Hy]. unfold desc; intros z Hz; lra.
    + constructor; [exact IH|].
      eapply Permutation_Forall.
      * symmetry. apply sort_insert_perm.
      * constructor; [unfold desc; lra | exact Hy].
Qed.

Lemma sort_sorted (l : list A) : StronglySorted desc (JS.sort cmp l).
Proof.
  induction l as [|x l IH]; simpl; [constructor|].
  now apply sort_insert_sorted.
Qed.

Lemma sort_insert_stable (p : Q) (x : A) (l : list A) :
  withKey p (JS.sort_insert cmp x l) = withKey p (x :: l).
Proof.
  unfold withKey.
  induction l as [|y l IH]; simpl; [reflexivity|].
  destruct (Qle_bool (cmp x y) 0) eqn:E; [reflexivity|].
  unfold cmp in E; qbool. cbn [filter]. rewrite IH. cbn [filter].
  destruct (Qeq_bool (key y) p) eqn:Ey, (Qeq_bool (key x) p) eqn:Ex;
    try reflexivity.
  qbool. lra.
Qed.

Lemma sort_stable (p : Q) (l : list A) : withKey p (JS.sort cmp l) = withKey p l.
Proof.
  induction l as [|x l IH]; simpl; [reflexivity|].
  fold (JS.sort cmp l). rewrite sort_insert_stable.
  unfold withKey in *. cbn [filter]. now rewrite IH.
Qed.

(** An array that is already in descending order is left as it is. *)
Lemma sort_sorted_id (l : list A) : StronglySorted desc l -> JS.sort cmp l = l.
Proof.
  induction 1 as [|x l Hl IH Hx]; simpl; [reflexivity|].
  fold (JS.sort cmp l). rewrite IH.
  destruct l as [|y l]; simpl; [reflexivity|].
  inversion Hx as [|? ? Hy _]; subst. unfold desc in Hy.
  destruct (Qle_bool (cmp x y) 0) eqn:E; [reflexivity|].
  unfold cmp in E; qbool. lra.
Qed.

Lemma sort_idempotent (l : list A) : JS.sort cmp (JS.sort cmp l) = JS.sort cmp l.
Proof. apply sort_sorted_id, sort_sorted. Qed.

(** A descending order that keeps equal keys in their given order is
    unique, so every stable sort computes what [JS.sort] computes. *)
Lemma stable_sorted_unique (l1 l2 : list A) :
  StronglySorted desc l1 -> StronglySorted desc l2 ->
  (forall p, withKey p l1 = withKey p l2) ->
  l1 = l2.
Proof.
  intros H1; revert l2.
  induction H1 as [|x l1 Hl1 IH Hx]; intros l2 H2 Hst.
  - destruct l2 as [|y l2]; [reflexivity|].
    specialize (Hst (key y)). unfold withKey in Hst. cbn [filter] in Hst.
    rewrite (proj2 (Qeq_bool_iff _ _) (Qeq_refl (key y))) in Hst. discriminate.
  - destruct H2 as [|y l2 Hl2 Hy].
    + specialize (Hst (key x)). unfold withKey in Hst. cbn [filter] in Hst.
      rewrite (proj2 (Qeq_bool_iff _ _) (Qeq_refl (key x))) in Hst. discriminate.
    + assert (Hin : forall (a : A) (l l' : list A),
                 withKey (key a) l = withKey (key a) l' -> In a l -> In a l').
      { intros a l l' E Ha.
        assert (Hf : In a (withKey (key a) l)).
        { apply filter_In; split; [exact Ha | apply Qeq_bool_iff; reflexivity]. }
        rewrite E in Hf. now apply filter_In in Hf. }
      assert (Hxy : key x == key y).
      { pose proof (Hin x _ _ (Hst (key x)) (or_introl eq_refl)) as [->|Hx2];
          [reflexivity|].
        pose proof (Hin y _ _ (eq_sym (Hst (key y))) (or_introl eq_refl))
          as [->|Hy1]; [reflexivity|].
        rewrite Forall_forall in Hx, Hy.
        specialize (Hx _ Hy1). specialize (Hy _ Hx2). unfold desc in Hx, Hy. lra. }
      assert (Exy : x = y).
      { specialize (Hst (key x)). unfold withKey in Hst. cbn [filter] in Hst.
        rewrite (proj2 (Qeq_bool_iff _ _) (Qeq_refl (key x))) in Hst.
        rewrite (proj2 (Qeq_bool_iff (key y) (key x)) (Qeq_sym _ _ Hxy)) in Hst.
        congruence. }
      subst y. f_equal. apply IH; [exact Hl2|].
      intro p. specialize (Hst p). unfold withKey in *. cbn [filter] in Hst.
      destruct (Qeq_bool (key x) p); congruence.
Qed.

(** The sorts that are acceptable for [Array.prototype.sort] with this
    comparator all return [JS.sort]'s result. *)
Lemma sort_model_determined (l sorted : list A) :
  StronglySorted desc sorted ->
  (forall p, withKey p sorted = withKey p l) ->
  sorted = JS.sort cmp l.
Proof.
  intros Hs Hst. apply stable_sorted_unique; [exact Hs | apply sort_sorted |].
  intro p. now rewrite Hst, sort_stable.
Qed.

End SortByKey.

(** ** Top performers and the shared array *)

Lemma Dashboard_top (st : Store) :
  view_topPerformers (fst (Dashboard st))
  = JS.slice0 5 (JS.sort byPercentageDesc (results_array st)).
Proof. reflexivity. Qed.

Lemma Dashboard_store (st : Store) :
  results_array (snd (Dashboard st)) = JS.sort byPercentageDesc (results_array st).
Proof. reflexivity. Qed.

Lemma In_firstn {A : Type} (n : nat) (l : list A) (y : A) :
  In y (firstn n l) -> In y l.
Proof.
  intro H. rewrite <- (firstn_skipn n l). apply in_or_app. now left.
Qed.

Lemma StronglySorted_firstn {A : Type} (R : A -> A -> Prop) (n : nat) (l : list A) :
  StronglySorted R l -> StronglySorted R (firstn n l).
Proof.
  intro H; revert n; induction H as [|x l Hl IH Hx]; intros [|n]; simpl;
    try constructor.
  - apply IH.
  - rewrite Forall_forall in *. intros y Hy. apply Hx.
    now apply In_firstn in Hy.
Qed.

(** C2. The top-performers list is the first five elements of the results
    put in descending order of percentage, with results of equal percentage
    in the order they have in the result list; it is itself in descending
    order and has [min 5 total_cases] elements. *)
Theorem top_performers_sorted (results : list ScoreResult) :
  exists sorted,
    topPerformers results = firstn 5 sorted
    /\ Permutation sorted results
    /\ StronglySorted (fun a b => pct b <= pct a) sorted
    /\ (forall p, filter (fun r => Qeq_bool (pct r) p) sorted
                  = filter (fun r => Qeq_bool (pct r) p) results)
    /\ StronglySorted (fun a b => pct b <= pct a) (topPerformers results)
    /\ List.length (topPerformers results) = Nat.min 5 (totalCases results).
Proof.
  exists (JS.sort byPercentageDesc results).
  unfold topPerformers. rewrite Dashboard_top. cbn [results_array].
  unfold JS.slice0.
  pose proof (sort_perm ScoreResult pct results) as Hperm.
  pose proof (sort_sorted ScoreResult pct results) as Hsorted.
  pose proof (fun p => sort_stable ScoreResult pct p results) as Hstable.
  cbv zeta in Hperm, Hsorted, Hstable.
  fold byPercentageDesc in Hperm, Hsorted, Hstable.
  repeat split; try assumption.
  - now apply StronglySorted_firstn.
  - rewrite length_firstn. unfold totalCases.
    now rewrite (Permutation_length Hperm).
Qed.

(** Whatever stable sort the engine runs, the list is the same one. *)
Lemma top_performers_determined (results sorted : list ScoreResult) :
  StronglySorted (fun a b => pct b <= pct a) sorted ->
  (forall p, filter (fun r => Qeq_bool (pct r) p) sorted
             = filter (fun r => Qeq_bool (pct r) p) results) ->
  firstn 5 sorted = topPerformers results.
Proof.
  intros Hs Hst. unfold topPerformers. rewrite Dashboard_top. unfold JS.slice0.
  f_equal. exact (sort_model_determined ScoreResult pct results sorted Hs Hst).
Qed.

(** A render leaves in the shared array the sorted results. *)
Lemma Dashboard_writes_sorted (st : Store) :
  snd (Dashboard st)
  = {| results_array := JS.sort byPercentageDesc (results_array st) |}.
Proof. reflexivity. Qed.

(** X3. The array is left as it was exactly when it was already in descending
    order of percentage. *)
Lemma Dashboard_frame_iff_sorted (st : Store) :
  snd (Dashboard st) = st
  <-> StronglySorted (fun a b => pct b <= pct a) (results_array st).
Proof.
  rewrite Dashboard_writes_sorted. destruct st as [results]. cbn [results_array].
  split; intro H.
  - injection H as H. rewrite <- H.
    exact (sort_sorted ScoreResult pct results).
  - f_equal. exact (sort_sorted_id ScoreResult pct results H).
Qed.

(** Rendering again shows the same top performers. *)
Lemma top_performers_rerender (st : Store) :
  view_topPerformers (fst (Dashboard (snd (Dashboard st))))
  = view_topPerformers (fst (Dashboard st)).
Proof.
  rewrite !Dashboard_top, Dashboard_store. f_equal.
  exact (sort_idempotent ScoreResult pct (results_array st)).
Qed.

(** C3. On the two results A (50%) and B (90%), given in this order, one
    render leaves the shared result array as B, A: the order of the input
    list is changed, the views computed before the sort show A, B and the
    result list of the same render shows B, A. *)
Theorem render_reorders_results :
  let a := mkScoreResult "A" (Some 5) (Some 50) None "Not Eligible" [] in
  let b := mkScoreResult "B" (Some 9) (Some 90) None "Eligible" [] in
  let st := {| results_array := [a; b] |} in
  results_array (snd (Dashboard st)) = [b; a]
  /\ results_array (snd (Dashboard st)) <> results_array st
  /\ map fst (view_caseScores (fst (Dashboard st))) = ["A"; "B"]
  /\ view_detailedResults (fst (Dashboard st)) = ["B"; "A"]
  /\ map fst (view_caseScores (fst (Dashboard (snd (Dashboard st))))) = ["B"; "A"].
Proof.
  cbv zeta. repeat split. intro H. vm_compute in H. discriminate H.
Qed.

(** ** Metric resolution *)

Lemma prefix_app (t s : string) :
  String.prefix t s = true <-> exists b, s = (t ++ b)%string.
Proof.
  revert s; induction t as [|c t IH]; intro s.
  - split; [intros _; now exists s | intros _; now destruct s].
  - destruct s as [|d s]; simpl.
    + split; [discriminate | intros [b Hb]; discriminate].
    + destruct (ascii_dec c d) as [->|Hcd]; rewrite ?IH; split.
      * intros [b ->]. now exists b.
      * intros [b Hb]. injection Hb as ->. now exists b.
      * discriminate.
      * intros [b Hb]. injection Hb as Hd _. congruence.
Qed.

(** [JS.includes s t] holds exactly when [t] is a contiguous part of [s]. *)
Lemma includes_spec (s t : string) :
  JS.includes s t = true <-> exists a b, s = (a ++ t ++ b)%string.
Proof.
  induction s as [|c s IH].
  - change (JS.includes "" t) with (if String.prefix t "" then true else false).
    destruct (String.prefix t "") eqn:E.
    + split; [intros _|reflexivity].
      apply prefix_app in E as [b Hb]. now exists ""%string, b.
    + split; [discriminate|]. intros [a [b H]].
      destruct a; [|discriminate]. simpl in H.
      assert (String.prefix t "" = true) by (apply prefix_app; now exists b).
      congruence.
  - change (JS.includes (String c s) t)
      with (if String.prefix t (String c s) then true else JS.includes s t).
    destruct (String.prefix t (String c s)) eqn:E.
    + split; [intros _|reflexivity].
      apply prefix_app in E as [b Hb]. now exists ""%string, b.
    + rewrite IH. split.
      * intros [a [b ->]]. now exists (String c a), b.
      * intros [a [b H]]. destruct a as [|c' a].
        -- simpl in H.
           assert (String.prefix t (String c s) = true)
             by (apply prefix_app; now exists b).
           congruence.
        -- injection H as _ ->. now exists a, b.
Qed.

Lemma get_firstHit (obj : list (string * JS.value)) (k : string) :
  JS.get obj k = firstHit (fun key => String.eqb key k) obj.
Proof.
  unfold firstHit.
  induction obj as [|[k' v] obj IH]; simpl; [reflexivity|].
  destruct (String.eqb k' k); [reflexivity | exact IH].
Qed.

Lemma scanEntries_firstHit (test : string -> bool)
  (entries : list (string * JS.value)) (value : JS.value) :
  scanEntries test entries value
  = match firstHit test entries with Some v => v | None => value end.
Proof.
  unfold firstHit.
  induction entries as [|[key val] entries IH]; simpl; [reflexivity|].
  destruct (test key); [reflexivity | exact IH].
Qed.

Lemma firstHit_ext (test test' : string -> bool) (entries : list (string * JS.value)) :
  (forall key, test key = test' key) ->
  firstHit test entries = firstHit test' entries.
Proof.
  intro H. unfold firstHit.
  induction entries as [|[key val] entries IH]; simpl; [reflexivity|].
  rewrite <- H. destruct (test key); [reflexivity | exact IH].
Qed.

(** *** The order of [Object.entries] *)

Lemma insertByIndex_In {V : Type} (i : N) (entry : string * V)
  (sorted : list (N * (string * V))) (x : N * (string * V)) :
  In x (Obj.insertByIndex i entry sorted) -> x = (i, entry) \/ In x sorted.
Proof.
  induction sorted as [|[j entry'] rest IH]; simpl.
  - intros [H|[]]; auto.
  - destruct (i <? j)%N; simpl.
    + intros [H|[H|H]]; auto.
    + intros [H|H]; auto. destruct (IH H); auto.
Qed.

Lemma indexed_In {V : Type} (obj : list (string * V)) (x : N * (string * V)) :
  In x (Obj.indexed obj) -> In (snd x) obj.
Proof.
  induction obj as [|entry obj IH]; simpl; [auto|].
  destruct (Obj.arrayIndex (fst entry)) as [i|]; [|auto].
  intro H. apply insertByIndex_In in H as [-> | H]; auto.
Qed.

(** [Object.entries] lists own entries only. *)
Lemma entries_In {V : Type} (obj : list (string * V)) (entry : string * V) :
  In entry (Obj.entries obj) -> In entry obj.
Proof.
  unfold Obj.entries. intro H. apply in_app_or in H as [H|H].
  - apply in_map_iff in H as (x & <- & Hx). now apply indexed_In.
  - now apply filter_In in H.
Qed.

(** Without array indices among the keys, [Object.entries] lists the
    entries in the order they were inserted. *)
Lemma entries_no_index {V : Type} (obj : list (string * V)) :
  Forall (fun entry => Obj.arrayIndex (fst entry) = None) obj ->
  Obj.entries obj = obj.
Proof.
  intro H. unfold Obj.entries.
  assert (Hindexed : Obj.indexed obj = []).
  { unfold Obj.indexed. induction H as [|entry l Hentry _ IH]; [reflexivity|].
    cbn [fold_right]. now rewrite Hentry. }
  rewrite Hindexed. cbn [map app].
  induction H as [|entry l Hentry _ IH]; [reflexivity|].
  cbn [filter]. rewrite Hentry. f_equal. apply IH.
  unfold Obj.indexed in *. cbn [fold_right] in Hindexed.
  now rewrite Hentry in Hindexed.
Qed.

Lemma lookup_firstHit (obj : list (string * JS.value)) (k : string) :
  Obj.lookup obj k
  = match firstHit (fun key => String.eqb key k) obj with
    | Some v => Obj.OwnValue v
    | None => if Obj.inherited k then Obj.InheritedMember k else Obj.Undefined
    end.
Proof. unfold Obj.lookup. now rewrite get_firstHit. Qed.

(** C4. For a criterion name that is not the name of a member of
    [Object.prototype], the value the comparison view resolves is the one
    this precedence gives: the cell under the exact key if the case has the
    key; else the first cell whose key equals the name up to case; else, or
    if that cell is [null], the first cell whose key contains the name or
    is contained in it, up to case; the scans go through the metrics in
    the order of [Object.entries], and a [null] cell under the exact key or
    at the first containment hit gives ['N/A'], as no hit does. A metric
    [revenue] is what ['Annual Revenue'] resolves to. When no key is an
    array index the order of [Object.entries] is the insertion order. *)
Theorem resolveValue_by_entries (toLowerCase : string -> string)
  (selectedCriteria : string) (caseData : list (string * JS.value)) :
  lowersAscii toLowerCase ->
  Obj.inherited selectedCriteria = false ->
  resolveValue toLowerCase selectedCriteria caseData
  = shown (resolveByEntries toLowerCase caseData selectedCriteria)
  /\ (forall v, v <> JS.VNull ->
        resolveValue toLowerCase "Annual Revenue" [("revenue", v)] = Val v)
  /\ (Forall (fun entry => Obj.arrayIndex (fst entry) = None) caseData ->
      Obj.entries caseData = caseData).
Proof.
  intros Hlower Hname. split; [|split].
  - unfold resolveValue, resolveByEntries.
    rewrite lookup_firstHit, Hname, !scanEntries_firstHit.
    destruct (firstHit (fun key => String.eqb key selectedCriteria) caseData)
      as [v|]; [now destruct v|].
    rewrite (firstHit_ext
               (fun key => JS.includes (toLowerCase selectedCriteria)
                                       (toLowerCase key)
                           || JS.includes (toLowerCase key)
                                          (toLowerCase selectedCriteria))
               (fun key => JS.includes (toLowerCase key)
                                       (toLowerCase selectedCriteria)
                           || JS.includes (toLowerCase selectedCriteria)
                                          (toLowerCase key)))
      by (intro key; apply orb_comm).
    destruct (firstHit (fun key => String.eqb (toLowerCase key)
                                     (toLowerCase selectedCriteria))
                       (Obj.entries caseData)) as [[|q|s]|];
      cbn [usable shown]; try reflexivity;
      match goal with
      | |- context [firstHit ?test (Obj.entries caseData)] =>
          destruct (firstHit test (Obj.entries caseData)) as [[|q'|s']|]
      end; reflexivity.
  - intros v Hv.
    assert (E1 : toLowerCase "Annual Revenue" = "annual revenue")
      by (rewrite Hlower; reflexivity).
    assert (E2 : toLowerCase "revenue" = "revenue")
      by (rewrite Hlower; reflexivity).
    unfold resolveValue.
    change (Obj.lookup [("revenue", v)] "Annual Revenue")
      with (@Obj.Undefined JS.value).
    change (Obj.entries [("revenue", v)]) with [("revenue", v)].
    cbn [scanEntries]. rewrite E1, E2.
    change (String.eqb "revenue" "annual revenue") with false.
    change (JS.includes "revenue" "annual revenue"
            || JS.includes "annual revenue" "revenue") with true.
    cbv iota beta zeta. destruct v; [congruence | reflexivity | reflexivity].
  - apply entries_no_index.
Qed.

(** The code on a case whose key [2023] is an array index. *)
Lemma resolveValue_by_entries_witness :
  resolveValue JS.toLowerCase "revenue 2023 total"
    [("Revenue 2023", JS.VNum 1); ("2023", JS.VNum 2)]
  = Val (JS.VNum 2).
Proof.
  refine (eq_trans
            (proj1 (resolveValue_by_entries JS.toLowerCase "revenue 2023 total"
                      [("Revenue 2023", JS.VNum 1); ("2023", JS.VNum 2)] _ _)) _).
  - intros s _. reflexivity.
  - reflexivity.
  - reflexivity.
Defined.

(** A case parsed from [{"Revenue 2023": 1, "2023": 2}] and the criterion
    ['revenue 2023 total']: no key equals the name, also up to case, and the
    name contains both keys. In insertion order the first hit is
    [Revenue 2023], with value 1; the code, which scans [Object.entries],
    meets the array index [2023] first and resolves 2. *)
Lemma resolveValue_insertion_order_counterexample :
  let caseData := [("Revenue 2023", JS.VNum 1); ("2023", JS.VNum 2)] in
  (forall toLowerCase,
     lowersAscii toLowerCase ->
     resolve toLowerCase caseData "revenue 2023 total" = Found (JS.VNum 1)
     /\ resolveValue toLowerCase "revenue 2023 total" caseData = Val (JS.VNum 2))
  /\ resolveValue JS.toLowerCase "revenue 2023 total" caseData
     <> shown (resolve JS.toLowerCase caseData "revenue 2023 total").
Proof.
  cbv zeta. split.
  - intros toLowerCase Hlower.
    assert (E1 : toLowerCase "revenue 2023 total" = "revenue 2023 total")
      by (rewrite Hlower; reflexivity).
    assert (E2 : toLowerCase "Revenue 2023" = "revenue 2023")
      by (rewrite Hlower; reflexivity).
    assert (E3 : toLowerCase "2023" = "2023")
      by (rewrite Hlower; reflexivity).
    split.
    + unfold resolve, firstHit. cbn [List.find fst snd].
      rewrite E1, E2, E3. reflexivity.
    + unfold resolveValue.
      change (Obj.lookup [("Revenue 2023", JS.VNum 1); ("2023", JS.VNum 2)]
                "revenue 2023 total") with (@Obj.Undefined JS.value).
      change (Obj.entries [("Revenue 2023", JS.VNum 1); ("2023", JS.VNum 2)])
        with [("2023", JS.VNum 2); ("Revenue 2023", JS.VNum 1)].
      cbn [scanEntries]. rewrite E1, E2, E3. reflexivity.
  - intro H. vm_compute in H. discriminate H.
Qed.

(** The value column of the comparison view is this resolution, case by
    case, whenever a criterion is selected and there are results. *)
Lemma getComparisonData_values (toLowerCase : string -> string)
  (selectedCriteria : string) (first : ScoreResult) (rest : list ScoreResult) :
  selectedCriteria <> ""%string ->
  getComparisonData toLowerCase selectedCriteria (first :: rest)
  = Some (map (fun result => resolveValue toLowerCase selectedCriteria
                               (case_data result))
              (first :: rest)).
Proof.
  intro H. unfold getComparisonData.
  destruct (String.eqb_spec selectedCriteria ""); [contradiction | reflexivity].
Qed.

(** A [null] cell is not a value: under the exact key it ends the
    resolution with ['N/A'], under a key equal up to case it lets the
    containment scan run. A name of a member of [Object.prototype] that is
    no key of the case resolves to that member. *)
Example resolveValue_null_cells :
  resolveValue JS.toLowerCase "Revenue"
    [("Revenue", JS.VNull); ("revenue", JS.VNum 5)]
  = Val (JS.VStr "N/A")
  /\ resolveValue JS.toLowerCase "Revenue"
       [("rev", JS.VNum 3); ("REVENUE", JS.VNull)]
     = Val (JS.VNum 3)
  /\ resolveValue JS.toLowerCase "constructor" [("revenue", JS.VNum 5)]
     = Member "constructor".
Proof. repeat split. Qed.

(** ** Ideal value *)

Lemma hd_error_filter {A : Type} (p : A -> bool) (l : list A) :
  hd_error (filter p l) = List.find p l.
Proof.
  induction l as [|x l IH]; simpl; [reflexivity|].
  destruct (p x); [reflexivity | exact IH].
Qed.

Lemma filter_scoresTen_sorted (intervals : list Interval) :
  StronglySorted (fun a b => score b <= score a) (filter scoresTen intervals).
Proof.
  induction intervals as [|i intervals IH]; simpl; [constructor|].
  destruct (scoresTen i) eqn:E; [|exact IH].
  constructor; [exact IH|].
  apply Forall_forall. intros j Hj. apply filter_In in Hj as [_ Hj].
  unfold scoresTen in *. qbool. lra.
Qed.

(** X15. The comparison view takes the first interval that scores 10 and has no
    other choice. *)
Lemma comparisonBestInterval_first_ten (c : Criterion) :
  comparisonBestInterval c
  = match scoring_intervals c with
    | Some intervals => List.find scoresTen intervals
    | None => None
    end.
Proof.
  unfold comparisonBestInterval.
  destruct (scoring_intervals c) as [intervals|]; [|reflexivity].
  rewrite (sort_sorted_id Interval score _ (filter_scoresTen_sorted intervals)).
  apply hd_error_filter.
Qed.

(** [highestInterval] is the first of the intervals with the highest
    score. *)
Lemma highestInterval_spec (first : Interval) (rest : list Interval) :
  exists before after,
    first :: rest = before ++ highestInterval first rest :: after
    /\ Forall (fun i => score i < score (highestInterval first rest)) before
    /\ Forall (fun i => score i <= score (highestInterval first rest)) after.
Proof.
  unfold highestInterval.
  enough (G : forall rest best before after,
             Forall (fun i => score i < score best) before ->
             Forall (fun i => score i <= score best) after ->
             let h := fold_left (fun best current =>
                                   if Qle_bool (score current) (score best)
                                   then best else current) rest best in
             exists before' after',
               before ++ best :: after ++ rest = before' ++ h :: after'
               /\ Forall (fun i => score i < score h) before'
               /\ Forall (fun i => score i <= score h) after').
  { specialize (G rest first [] [] (Forall_nil _) (Forall_nil _)). exact G. }
  clear first rest.
  induction rest as [|current rest IH]; intros best before after Hb Ha; cbn zeta.
  - exists before, after. rewrite app_nil_r. auto.
  - cbn [fold_left]. destruct (Qle_bool (score current) (score best)) eqn:E; qbool.
    + specialize (IH best before (after ++ [current]) Hb).
      cbn zeta in IH. rewrite <- app_assoc in IH. apply IH.
      apply Forall_app; split; [exact Ha | repeat constructor; exact E].
    + specialize (IH current (before ++ best :: after) []).
      cbn zeta in IH. rewrite <- app_assoc in IH. apply IH; [|constructor].
      apply Forall_app; split.
      * eapply Forall_impl; [|exact Hb]. cbn; intros; lra.
      * constructor; [exact E|].
        eapply Forall_impl; [|exact Ha]. cbn; intros; lra.
Qed.

(** X14. The criteria tab takes the first interval that scores 10 and, when
    there is none, the first of the intervals with the highest score. *)
Lemma tabBestInterval_spec (c : Criterion) (first : Interval) (rest : list Interval) :
  scoring_intervals c = Some (first :: rest) ->
  match List.find scoresTen (first :: rest) with
  | Some ten => tabBestInterval c = Some ten
  | None =>
      exists best, tabBestInterval c = Some best
        /\ In best (first :: rest)
        /\ Forall (fun i => score i <= score best) (first :: rest)
  end.
Proof.
  intro H. unfold tabBestInterval, JS.find. rewrite H.
  destruct (List.find scoresTen (first :: rest)); [reflexivity|].
  exists (highestInterval first rest). split; [reflexivity|].
  destruct (highestInterval_spec first rest) as (before & after & E & Hb & Ha).
  rewrite E. split.
  - apply in_or_app. right. now left.
  - apply Forall_app; split.
    + eapply Forall_impl; [|exact Hb]. cbn; intros; lra.
    + constructor; [lra | exact Ha].
Qed.

(** C5. For a criterion whose intervals score 2, 6 and 8, the comparison
    view has no best interval and shows ['N/A'] as ideal value, where the
    criteria tab takes the interval that scores 8. *)
Theorem comparison_ideal_value_without_ten :
  let low := mkInterval (Some "<50000") (Some "<50000") None 2 in
  let mid := mkInterval (Some "50000-150000") (Some "50000-150000") None 6 in
  let high := mkInterval (Some ">150000") (Some ">150000") None 8 in
  let c := mkCriterion "Revenue" (Some 30) None (Some [low; mid; high]) in
  comparisonBestInterval c = None
  /\ comparisonIdealValue c = "N/A"%string
  /\ tabBestInterval c = Some high
  /\ tabIdealValue c = Some ">150000"%string.
Proof. cbv zeta. repeat split. Qed.

(** ** Weight *)

(** Without a weight the comparison view uses 1; a weight that is not 0 is
    used as it is. *)
Lemma comparisonWeight_default (c : Criterion) :
  (weight c = None -> comparisonWeight c = 1)
  /\ (forall w, weight c = Some w -> ~ w == 0 -> comparisonWeight c = w).
Proof.
  unfold comparisonWeight; split.
  - intros ->. reflexivity.
  - intros w -> Hw. simpl.
    destruct (Qeq_bool w 0) eqn:E; qbool; [contradiction | reflexivity].
Qed.

(** C8. A criterion that is given the weight 0 has the weight 1 in the
    comparison view. *)
Theorem comparisonWeight_of_zero :
  let c := mkCriterion "Revenue" (Some 0) None None in
  weight c = Some 0 /\ comparisonWeight c = 1 /\ ~ comparisonWeight c == 0.
Proof. cbv zeta. repeat split. intro H. discriminate H. Qed.

(** ** Aggregates and the order of the results *)

Lemma filter_length_perm {A : Type} (p : A -> bool) (l l' : list A) :
  Permutation l l' -> JS.filter_length p l = JS.filter_length p l'.
Proof.
  intro H. unfold JS.filter_length. apply Permutation_length.
  induction H; simpl.
  - constructor.
  - destruct (p x); [now constructor | assumption].
  - destruct (p x), (p y); try reflexivity; apply perm_swap || constructor;
      reflexivity.
  - etransitivity; eassumption.
Qed.

Lemma distribution_nth (results : list ScoreResult) (i : nat) :
  nth i (getScoreDistributionData results) 0%nat
  = JS.filter_length (fun r => Nat.eqb (binIndex (pct r)) i) results.
Proof.
  destruct (distribution_loop results [0; 0; 0; 0; 0]%nat eq_refl) as (_ & _ & H).
  fold (getScoreDistributionData results) in H. rewrite H, nth_zeros. reflexivity.
Qed.

Lemma distribution_length (results : list ScoreResult) :
  List.length (getScoreDistributionData results) = 5%nat.
Proof.
  now destruct (distribution_loop results [0; 0; 0; 0; 0]%nat eq_refl) as (H & _).
Qed.

Lemma aggregates_perm (l l' : list ScoreResult) :
  Permutation l l' ->
  totalCases l = totalCases l'
  /\ statusPieData l = statusPieData l'
  /\ getScoreDistributionData l = getScoreDistributionData l'
  /\ approvalRate l = approvalRate l'.
Proof.
  intro H.
  assert (Hlen : List.length l = List.length l') by now apply Permutation_length.
  assert (Happ : approvedCount l = approvedCount l')
    by (unfold approvedCount; now apply filter_length_perm).
  split; [exact Hlen|]. split; [|split].
  - unfold statusPieData, reviewCount, rejectedCount. rewrite Happ.
    now rewrite (filter_length_perm _ l l' H),
                (filter_length_perm (fun r => String.eqb (eligibility_status r)
                                                 "Not Eligible") l l' H).
  - apply (nth_ext _ _ 0%nat 0%nat).
    + now rewrite !distribution_length.
    + intros i _. rewrite !distribution_nth. now apply filter_length_perm.
  - unfold approvalRate, totalCases. now rewrite Hlen, Happ.
Qed.

(** X1. The number of cases, the three status counts, the five counts of
    the distribution and the approval rate depend on the results only up to
    their order. *)
Theorem aggregates_permutation_invariant (l l' : list ScoreResult) :
  Permutation l l' ->
  totalCases l = totalCases l'
  /\ statusPieData l = statusPieData l'
  /\ getScoreDistributionData l = getScoreDistributionData l'
  /\ approvalRate l = approvalRate l'.
Proof. exact (aggregates_perm l l'). Qed.

Lemma aggregates_permutation_invariant_witness :
  let a := mkScoreResult "A" (Some 5) (Some 50) None "Not Eligible" [] in
  let b := mkScoreResult "B" (Some 9) (Some 90) None "Eligible" [] in
  getScoreDistributionData [a; b] = getScoreDistributionData [b; a]
  /\ statusPieData [a; b] = statusPieData [b; a].
Proof.
  cbv zeta.
  pose proof (aggregates_permutation_invariant
                [mkScoreResult "A" (Some 5) (Some 50) None "Not Eligible" [];
                 mkScoreResult "B" (Some 9) (Some 90) None "Eligible" []]
                [mkScoreResult "B" (Some 9) (Some 90) None "Eligible" [];
                 mkScoreResult "A" (Some 5) (Some 50) None "Not Eligible" []]
                (perm_swap _ _ _)) as (_ & Hp & Hd & _).
  split; assumption.
Defined.

(** X2. A second render of the component, on the array the first one left,
    shows the same number of cases, status counts, distribution and top
    performers. *)
Theorem rerender_shows_same_aggregates (st : Store) :
  let first := fst (Dashboard st) in
  let second := fst (Dashboard (snd (Dashboard st))) in
  view_totalCases second = view_totalCases first
  /\ view_statusPie second = view_statusPie first
  /\ view_scoreDistribution second = view_scoreDistribution first
  /\ view_topPerformers second = view_topPerformers first.
Proof.
  cbv zeta.
  pose proof (aggregates_perm _ _ (sort_perm ScoreResult pct (results_array st)))
    as (H1 & H2 & H3 & _).
  repeat split; try assumption.
  rewrite !Dashboard_top, Dashboard_store. f_equal.
  exact (sort_idempotent ScoreResult pct (results_array st)).
Qed.

(** ** Bounds *)

Lemma inject_length_cons {A : Type} (x : A) (l : list A) :
  inject_Z (Z.of_nat (List.length (x :: l)))
  == inject_Z (Z.of_nat (List.length l)) + 1.
Proof.
  cbn [List.length]. rewrite Nat2Z.inj_succ, <- Z.add_1_r, inject_Z_plus.
  reflexivity.
Qed.

Lemma inject_length_pos {A : Type} (l : list A) :
  l <> [] -> 0 < inject_Z (Z.of_nat (List.length l)).
Proof.
  destruct l as [|x l]; [congruence|]. intros _.
  unfold Qlt; simpl. lia.
Qed.

Lemma sumQ_bounds (lo hi : Q) (xs : list Q) :
  Forall (fun x => lo <= x <= hi) xs ->
  inject_Z (Z.of_nat (List.length xs)) * lo <= sumQ xs
  /\ sumQ xs <= inject_Z (Z.of_nat (List.length xs)) * hi.
Proof.
  induction 1 as [|x xs [Hlo Hhi] _ [IHlo IHhi]].
  - cbn [List.length Z.of_nat sumQ fold_right].
    change (inject_Z 0) with 0. split; lra.
  - rewrite inject_length_cons. unfold sumQ in *. cbn [fold_right].
    split; lra.
Qed.

Lemma quotient_bounds (lo hi s n : Q) :
  0 < n -> n * lo <= s -> s <= n * hi -> lo <= s / n <= hi.
Proof.
  intros Hn Hlo Hhi. split.
  - apply Qle_shift_div_l; [exact Hn | lra].
  - apply Qle_shift_div_r; [exact Hn | lra].
Qed.

Lemma mean_bounds (lo hi : Q) (xs : list Q) :
  xs <> [] -> Forall (fun x => lo <= x <= hi) xs -> lo <= mean xs <= hi.
Proof.
  intros Hne Hall. destruct (sumQ_bounds lo hi xs Hall) as [Hlo Hhi].
  unfold mean. apply quotient_bounds; auto using inject_length_pos.
Qed.

(** X4. When every percentage is in [[0,100]], so is the average score. *)
Theorem avgScore_in_percentage_range (results : list ScoreResult) :
  Forall (fun r => 0 <= pct r <= 100) results ->
  0 <= avgScore results <= 100.
Proof.
  intros Hall. destruct results as [|first rest].
  - unfold avgScore. cbn [List.length Nat.ltb Nat.leb]. split; lra.
  - assert (E : avgScore (first :: rest) == mean (map pct (first :: rest))).
    { unfold avgScore, mean. cbn [List.length Nat.ltb Nat.leb].
      rewrite reduce_sum_sumQ, length_map. reflexivity. }
    rewrite E. apply mean_bounds; [discriminate|].
    apply Forall_map. exact Hall.
Qed.

Lemma avgScore_in_percentage_range_witness :
  0 <= avgScore [mkScoreResult "A" (Some 5) (Some 50) None "Not Eligible" [];
                 mkScoreResult "B" (Some 9) (Some 90) None "Eligible" []] <= 100.
Proof.
  apply avgScore_in_percentage_range.
  repeat constructor; vm_compute; discriminate.
Defined.

(** X5. The approval rate is a percentage, and it is 100 exactly when there are
    results and all of them are eligible. *)
Theorem approvalRate_range (results : list ScoreResult) :
  0 <= approvalRate results <= 100
  /\ (approvalRate results == 100
      <-> results <> []
          /\ Forall (fun r => eligibility_status r = "Eligible"%string) results).
Proof.
  unfold approvalRate, totalCases.
  destruct results as [|first rest].
  - simpl. split; [split; lra|]. split; [intro H; lra | intros [H _]; congruence].
  - set (results := first :: rest).
    assert (Hn : 0 < inject_Z (Z.of_nat (List.length results)))
      by (apply inject_length_pos; discriminate).
    pose proof (filter_length_bound
                  (fun r => String.eqb (eligibility_status r) "Eligible") results)
      as Hle.
    fold (approvedCount results) in Hle.
    assert (Ha : 0 <= inject_Z (Z.of_nat (approvedCount results)))
      by (unfold Qle; simpl; lia).
    assert (Hb : inject_Z (Z.of_nat (approvedCount results))
                 <= inject_Z (Z.of_nat (List.length results)))
      by (rewrite <- Zle_Qle; lia).
    replace (0 <? List.length results)%nat with true by reflexivity.
    set (a := inject_Z (Z.of_nat (approvedCount results))) in *.
    set (n := inject_Z (Z.of_nat (List.length results))) in *.
    assert (Hq : 0 <= a / n <= 1).
    { apply quotient_bounds; [exact Hn | lra | lra]. }
    split; [split; lra|].
    assert (Hdiv : a / n * n == a) by (field; lra).
    split.
    + intro H. split; [discriminate|].
      assert (Han : a == n) by nra.
      assert (Han' : approvedCount results = List.length results)
        by (unfold a, n, Qeq in Han; cbn [Qnum Qden inject_Z] in Han; lia).
      clear Han; rename Han' into Han.
      apply filter_length_all in Han.
      eapply Forall_impl; [|exact Han]. cbn. intros r Hr.
      now apply String.eqb_eq.
    + intros [_ Hall].
      assert (Han : approvedCount results = List.length results).
      { apply filter_length_all. eapply Forall_impl; [|exact Hall].
        cbn. intros r Hr. now apply String.eqb_eq. }
      assert (E : a == n) by (unfold a, n; now rewrite Han).
      rewrite E. field. lra.
Qed.

(** X6. A higher score never goes to a lower bin. *)
Theorem binIndex_monotone (p q : Q) :
  p <= q -> (binIndex p <= binIndex q)%nat.
Proof.
  intro H. unfold binIndex.
  repeat match goal with
  | |- context [Qle_bool ?a ?b] =>
      let E' := fresh "E" in destruct (Qle_bool a b) eqn:E'; qbool
  end; try lia; lra.
Qed.

Lemma binIndex_monotone_witness : (binIndex 55 <= binIndex 85)%nat.
Proof. apply binIndex_monotone. vm_compute. discriminate. Defined.




(** ** Charts *)




(** X9. The bar chart of the scores has one label, one value and one colour of
    each kind per case, in the order of the results; a bar is green from 80
    on and red below 60, its border has the colour of the same tier, and
    the tier is the one [getScoreColor] gives the score. *)
Theorem caseScoresData_colours (results : list ScoreResult) :
  List.length (bar_labels (caseScoresData results)) = totalCases results
  /\ List.length (bar_data (caseScoresData results)) = totalCases results
  /\ List.length (backgroundColor (caseScoresData results)) = totalCases results
  /\ List.length (borderColor (caseScoresData results)) = totalCases results
  /\ forall i r,
       nth_error results i = Some r ->
       nth_error (bar_labels (caseScoresData results)) i = Some (case_id r)
       /\ nth_error (bar_data (caseScoresData results)) i = Some (pct r)
       /\ exists fill border,
            nth_error (backgroundColor (caseScoresData results)) i = Some fill
            /\ nth_error (borderColor (caseScoresData results)) i = Some border
            /\ (fill = "#10B981"%string <-> 80 <= pct r)
            /\ (fill = "#EF4444"%string <-> pct r < 60)
            /\ (border = "#059669"%string <-> fill = "#10B981"%string)
            /\ (border = "#DC2626"%string <-> fill = "#EF4444"%string)
            /\ (getScoreColor (pct r) = "text-green-600"%string
                <-> fill = "#10B981"%string)
            /\ (getScoreColor (pct r) = "text-red-600"%string
                <-> fill = "#EF4444"%string).
Proof.
  unfold caseScoresData, totalCases.
  cbn [bar_labels bar_data backgroundColor borderColor].
  rewrite !length_map. repeat split; try reflexivity;
    try (rewrite nth_error_map, H; reflexivity).
  rewrite !nth_error_map, H. cbn [option_map]. unfold getScoreColor.
  do 2 eexists. split; [reflexivity|]. split; [reflexivity|].
  case_qle 80 (pct r); [|case_qle 60 (pct r)];
    repeat split; intros; try reflexivity; try discriminate; try lra.
Qed.

(** X10. A higher score never gets a worse colour. *)
Theorem getScoreColor_monotone (p q : Q) :
  p <= q ->
  (getScoreColor p = "text-green-600"%string
   -> getScoreColor q = "text-green-600"%string)
  /\ (getScoreColor q = "text-red-600"%string
      -> getScoreColor p = "text-red-600"%string).
Proof.
  intro H. unfold getScoreColor.
  case_qle 80 p; case_qle 80 q; try lra;
    case_qle 60 p; case_qle 60 q; try lra;
    split; intros; try reflexivity; try discriminate; lra.
Qed.

Lemma getScoreColor_monotone_witness :
  getScoreColor 55 = "text-red-600"%string.
Proof.
  refine (proj2 (getScoreColor_monotone 55 59 _) _).
  - vm_compute. discriminate.
  - reflexivity.
Defined.

(** X11. The badge of a status is grey exactly when the status is in no bucket
    of the eligibility breakdown, and the three statuses that have a bucket
    have three badges of their own. *)
Theorem getStatusColor_known (s : string) :
  (getStatusColor s = "bg-gray-100 text-gray-800"%string <-> knownStatus s = false)
  /\ forall t, knownStatus s = true -> getStatusColor s = getStatusColor t -> s = t.
Proof.
  unfold getStatusColor, knownStatus.
  destruct (String.eqb_spec s "Eligible") as [->|H1].
  { split; [split; discriminate|]. intros t _.
    destruct (String.eqb_spec t "Eligible") as [->|]; [reflexivity|].
    destruct (String.eqb t "Review Required"); [discriminate|].
    destruct (String.eqb t "Not Eligible"); discriminate. }
  destruct (String.eqb_spec s "Review Required") as [->|H2].
  { split; [split; discriminate|]. intros t _.
    destruct (String.eqb t "Eligible"); [discriminate|].
    destruct (String.eqb_spec t "Review Required") as [->|]; [reflexivity|].
    destruct (String.eqb t "Not Eligible"); discriminate. }
  destruct (String.eqb_spec s "Not Eligible") as [->|H3].
  { split; [split; discriminate|]. intros t _.
    destruct (String.eqb t "Eligible"); [discriminate|].
    destruct (String.eqb t "Review Required"); [discriminate|].
    destruct (String.eqb_spec t "Not Eligible") as [->|]; [reflexivity|].
    discriminate. }
  split; [split; reflexivity | discriminate].
Qed.

(** ** The comparison view *)

Lemma firstHit_In (test : string -> bool) (entries : list (string * JS.value))
  (v : JS.value) :
  firstHit test entries = Some v -> exists key, In (key, v) entries.
Proof.
  unfold firstHit. intro H.
  destruct (List.find _ entries) as [[key v']|] eqn:E; [|discriminate].
  injection H as <-. apply find_some in E as [Hin _]. now exists key.
Qed.

Lemma firstHit_entries_In (test : string -> bool)
  (caseData : list (string * JS.value)) (v : JS.value) :
  firstHit test (Obj.entries caseData) = Some v ->
  exists key, In (key, v) caseData.
Proof.
  intro H. apply firstHit_In in H as [key H]. exists key.
  now apply entries_In.
Qed.

(** X12. The value resolved for a criterion is never [null]. It is
    ['N/A'], or the value of one of the case's metrics, or, when the name
    is the name of a member of [Object.prototype] and no key of the case,
    that member. *)
Theorem resolveValue_from_case (toLowerCase : string -> string)
  (selectedCriteria : string) (caseData : list (string * JS.value)) :
  resolveValue toLowerCase selectedCriteria caseData <> Val JS.VNull
  /\ (resolveValue toLowerCase selectedCriteria caseData = Val (JS.VStr "N/A")
      \/ (exists key v,
            In (key, v) caseData
            /\ resolveValue toLowerCase selectedCriteria caseData = Val v)
      \/ (resolveValue toLowerCase selectedCriteria caseData
          = Member selectedCriteria
          /\ Obj.inherited selectedCriteria = true
          /\ JS.get caseData selectedCriteria = None)).
Proof.
  unfold resolveValue. rewrite lookup_firstHit, !scanEntries_firstHit.
  rewrite <- get_firstHit.
  destruct (JS.get caseData selectedCriteria) as [v|] eqn:E1.
  { rewrite get_firstHit in E1. apply firstHit_In in E1 as [key Hin].
    destruct v; (split; [discriminate|]);
      [now left | right; left; eauto | right; left; eauto]. }
  destruct (Obj.inherited selectedCriteria) eqn:Hinh.
  { split; [discriminate|]. right; right. auto. }
  destruct (firstHit (fun key => String.eqb (toLowerCase key)
                                   (toLowerCase selectedCriteria))
                     (Obj.entries caseData)) as [v|] eqn:E2.
  - apply firstHit_entries_In in E2 as [key Hin].
    destruct v; try (split; [discriminate | right; left; eauto]).
    match goal with
    | |- context [firstHit ?test (Obj.entries caseData)] =>
        destruct (firstHit test (Obj.entries caseData)) as [w|] eqn:E3
    end.
    + apply firstHit_entries_In in E3 as [key' Hin'].
      destruct w; (split; [discriminate|]);
        [now left | right; left; eauto | right; left; eauto].
    + split; [discriminate | now left].
  - match goal with
    | |- context [firstHit ?test (Obj.entries caseData)] =>
        destruct (firstHit test (Obj.entries caseData)) as [w|] eqn:E3
    end.
    + apply firstHit_entries_In in E3 as [key' Hin'].
      destruct w; (split; [discriminate|]);
        [now left | right; left; eauto | right; left; eauto].
    + split; [discriminate | now left].
Qed.

Lemma mapi_from_length {A B : Type} (f : A -> nat -> B) (i : nat) (l : list A) :
  List.length (mapi_from f i l) = List.length l.
Proof.
  revert i; induction l as [|x l IH]; intro i; simpl; [reflexivity|].
  now rewrite IH.
Qed.

Lemma mapi_from_nth_error {A B : Type} (f : A -> nat -> B) (i j : nat) (l : list A) :
  nth_error (mapi_from f i l) j = option_map (fun x => f x (i + j)%nat) (nth_error l j).
Proof.
  revert i j; induction l as [|x l IH]; intros i [|j]; simpl; try reflexivity.
  - now rewrite Nat.add_0_r.
  - rewrite IH. now rewrite Nat.add_succ_r.
Qed.

Lemma mapi_from_map {A B C : Type} (f : A -> nat -> B) (g : B -> C) (h : A -> C)
  (i : nat) (l : list A) :
  (forall x k, g (f x k) = h x) -> map g (mapi_from f i l) = map h l.
Proof.
  intro H. revert i; induction l as [|x l IH]; intro i; simpl; [reflexivity|].
  now rewrite H, IH.
Qed.

Lemma mapi_length {A B : Type} (f : A -> nat -> B) (l : list A) :
  List.length (mapi f l) = List.length l.
Proof. apply mapi_from_length. Qed.

Lemma mapi_nth_error {A B : Type} (f : A -> nat -> B) (j : nat) (l : list A) :
  nth_error (mapi f l) j = option_map (fun x => f x j) (nth_error l j).
Proof. unfold mapi. now rewrite mapi_from_nth_error. Qed.

(** X13. The comparison view of the second variant is produced exactly when a
    criterion is selected and there are results. Its chart then has, for the
    required minimum and for every case in order, one label, one number and
    one colour of each kind; the case is labelled by its position, and its
    number is the value resolved for it when that is a number, otherwise 0. *)
Theorem comparison_chart_parallel (toLowerCase : string -> string)
  (selectedCriteria : string) (criteriaList : list Criterion)
  (results : list ComparisonChart.Result) :
  (ComparisonChart.getComparisonData toLowerCase selectedCriteria criteriaList
     results = None
   <-> selectedCriteria = ""%string \/ results = [])
  /\ forall view,
       ComparisonChart.getComparisonData toLowerCase selectedCriteria
         criteriaList results = Some view ->
       let chart := ComparisonChart.chartData view in
       List.length (ComparisonChart.labels chart) = S (List.length results)
       /\ List.length (ComparisonChart.data chart) = S (List.length results)
       /\ List.length (ComparisonChart.backgroundColor chart)
          = S (List.length results)
       /\ List.length (ComparisonChart.borderColor chart)
          = S (List.length results)
       /\ nth_error (ComparisonChart.data chart) 0
          = Some (ComparisonChart.minRequired view)
       /\ getComparisonData toLowerCase selectedCriteria
            (map ComparisonChart.result results)
          = Some (map CaseValue.value (ComparisonChart.cases view))
       /\ forall j r,
            nth_error results j = Some r ->
            nth_error (ComparisonChart.labels chart) (S j)
            = Some ("Case " ++ Str.ofNat (j + 1))%string
            /\ nth_error (ComparisonChart.data chart) (S j)
               = Some match resolveValue toLowerCase selectedCriteria
                              (case_data (ComparisonChart.result r)) with
                      | Val (JS.VNum q) => q
                      | _ => 0
                      end.
Proof.
  unfold ComparisonChart.getComparisonData, getComparisonData, Str.truthy.
  rewrite negb_involutive.
  destruct (String.eqb_spec selectedCriteria "") as [->|Hsel].
  { split; [split; auto | discriminate]. }
  destruct results as [|first rest].
  { split; [split; auto | discriminate]. }
  set (results := first :: rest).
  replace (List.length results =? 0)%nat with false by reflexivity.
  replace (List.length (map ComparisonChart.result results) =? 0)%nat
    with false by reflexivity.
  split.
  { split; [discriminate | intros [H|H]; [contradiction | discriminate]]. }
  clearbody results.
  intros view H. injection H as <-. cbv zeta.
  cbn [ComparisonChart.chartData ComparisonChart.labels ComparisonChart.data
       ComparisonChart.backgroundColor ComparisonChart.borderColor
       ComparisonChart.minRequired ComparisonChart.cases].
  cbn [List.length nth_error]. rewrite !length_map, mapi_length.
  repeat split; try reflexivity.
  - f_equal. rewrite map_map. symmetry. unfold mapi. now apply mapi_from_map.
  - rewrite nth_error_map, mapi_nth_error, H. reflexivity.
  - rewrite nth_error_map, mapi_nth_error, H. reflexivity.
Qed.

(** ** Criteria of the comparison view and the default selection *)

Lemma comparisonWeight_nonzero (c : Criterion) : ~ comparisonWeight c == 0.
Proof.
  unfold comparisonWeight, JS.jsOr.
  destruct (weight c) as [w|]; [|intro H; discriminate H].
  destruct (Qeq_bool w 0) eqn:E; qbool; [intro H; discriminate H | exact E].
Qed.

Lemma strOr_nonempty (x d : option string) (s : string) :
  (forall t, d = Some t -> t <> ""%string) ->
  strOr x d = Some s -> s <> ""%string.
Proof.
  intros Hd. unfold strOr. destruct x as [t|]; [|apply Hd].
  destruct (String.eqb_spec t ""); [apply Hd|].
  intro H; injection H as <-. assumption.
Qed.

Lemma comparisonIdealValue_nonempty (c : Criterion) :
  comparisonIdealValue c <> ""%string.
Proof.
  unfold comparisonIdealValue.
  destruct (comparisonBestInterval c) as [best|]; [|discriminate].
  destruct (strOr (range best) _) as [s|] eqn:E; [|discriminate].
  revert E. apply strOr_nonempty. intros t Ht. revert Ht.
  apply strOr_nonempty. intros u Hu. injection Hu as <-. discriminate.
Qed.

(** X16. [criteriaForComparison] has one entry per criterion of its source, in
    order and under the same name; no entry has the weight 0 or an empty
    ideal value. *)
Theorem criteriaForComparison_entries (criteriaSource : list (string * Criterion)) :
  map ComparisonCriterion.name (criteriaForComparison criteriaSource)
  = JS.keys criteriaSource
  /\ Forall (fun c => ~ ComparisonCriterion.weight c == 0
                      /\ ComparisonCriterion.idealValue c <> ""%string)
            (criteriaForComparison criteriaSource).
Proof.
  unfold criteriaForComparison, JS.keys.
  destruct criteriaSource as [|entry rest]; [split; [reflexivity | constructor]|].
  set (source := entry :: rest).
  replace (List.length (map fst source) =? 0)%nat with false by reflexivity.
  clearbody source. split.
  - rewrite map_map. apply map_ext. now intros [name c].
  - apply Forall_map. apply Forall_forall. intros [name c] _.
    cbn [ComparisonCriterion.weight ComparisonCriterion.idealValue].
    split; [apply comparisonWeight_nonzero | apply comparisonIdealValue_nonempty].
Qed.

Lemma find_some_In {A : Type} (p : A -> bool) (l : list A) (x : A) :
  List.find p l = Some x -> In x l.
Proof. intro H. now apply find_some in H. Qed.

(** X17. The effect that sets the default selection reaches a fixed point in one
    run. It leaves a selection the user made as it is; from the initial
    selection, with criteria, it selects the parameter of one of them. *)
Theorem selectDefaultCriteria_stable (criteria : list Criterion)
  (comparison : list ComparisonCriterion.t) (selectedCriteria : string) :
  selectDefaultCriteria criteria comparison
    (selectDefaultCriteria criteria comparison selectedCriteria)
  = selectDefaultCriteria criteria comparison selectedCriteria
  /\ (selectedCriteria <> ""%string -> selectedCriteria <> "Revenue"%string ->
      selectDefaultCriteria criteria comparison selectedCriteria = selectedCriteria)
  /\ (criteria <> [] ->
      selectedCriteria = ""%string \/ selectedCriteria = "Revenue"%string ->
      In (selectDefaultCriteria criteria comparison selectedCriteria)
         (map parameter criteria)).
Proof.
  unfold selectDefaultCriteria, Str.truthy.
  split; [|split].
  - destruct criteria as [|first rest].
    + destruct comparison as [|cfirst crest]; [reflexivity|].
      destruct (negb (negb (String.eqb selectedCriteria ""))
                || String.eqb selectedCriteria "Revenue") eqn:E.
      * match goal with
        | |- context [JS.find ?p ?l] => destruct (JS.find p l)
        end;
        match goal with
        | |- (if ?b then _ else _) = _ => destruct b; reflexivity
        end.
      * now rewrite E.
    + destruct (negb (negb (String.eqb selectedCriteria ""))
                || String.eqb selectedCriteria "Revenue") eqn:E.
      * match goal with
        | |- context [JS.find ?p ?l] => destruct (JS.find p l)
        end;
        match goal with
        | |- (if ?b then _ else _) = _ => destruct b; reflexivity
        end.
      * now rewrite E.
  - intros H1 H2.
    apply String.eqb_neq in H1, H2. rewrite H1, H2. cbn [negb orb].
    destruct criteria; [destruct comparison|]; reflexivity.
  - intros Hne Hsel.
    assert (E : negb (negb (String.eqb selectedCriteria ""))
                || String.eqb selectedCriteria "Revenue" = true)
      by (destruct Hsel as [-> | ->]; reflexivity).
    rewrite E. destruct criteria as [|first rest]; [congruence|].
    match goal with
    | |- context [JS.find ?p ?l] => destruct (JS.find p l) as [item|] eqn:F
    end.
    + apply in_map. now apply find_some_In in F.
    + now left.
Qed.

Lemma tabBestInterval_spec_witness :
  tabBestInterval
    (mkCriterion "Revenue" (Some 30) None
       (Some [mkInterval (Some "<50000") None None 2;
              mkInterval (Some "50000-150000") None None 10;
              mkInterval (Some ">150000") None None 10]))
  = Some (mkInterval (Some "50000-150000") None None 10).
Proof.
  exact (tabBestInterval_spec
           (mkCriterion "Revenue" (Some 30) None
              (Some [mkInterval (Some "<50000") None None 2;
                     mkInterval (Some "50000-150000") None None 10;
                     mkInterval (Some ">150000") None None 10]))
           (mkInterval (Some "<50000") None None 2)
           [mkInterval (Some "50000-150000") None None 10;
            mkInterval (Some ">150000") None None 10]
           eq_refl).
Defined.

(** ** The comparison view read from the metric scores *)

Lemma find_none_Forall {A : Type} (p : A -> bool) (l : list A) :
  Forall (fun x => p x = false) l -> List.find p l = None.
Proof.
  induction 1 as [|x l Hx _ IH]; simpl; [reflexivity|]. now rewrite Hx.
Qed.

(** X18. The comparison view of the first variant is produced exactly when a
    criterion is selected and there are results; it then has one row per
    result, in order. No row has an empty case name or a blank actual value;
    a result without metric scores, or none of whose metrics is named as
    the selection up to case and surrounding blanks, has the row ['N/A']
    with score 0. This holds whatever [toLowerCase], [trim] and [String]
    on a number compute, given that trimming ['N/A'] leaves something. *)
Theorem metric_comparison_rows (toLowerCase trim : string -> string)
  (numberToString : Q -> string)
  (selectedCriteria : string) (comparison : list ComparisonCriterion.t)
  (criteria : list Criterion) (resultsSource : list MetricComparison.Result) :
  trim "N/A" <> ""%string ->
  (MetricComparison.getComparisonData toLowerCase trim numberToString
     selectedCriteria comparison criteria resultsSource = None
   <-> selectedCriteria = ""%string \/ resultsSource = [])
  /\ forall view,
       MetricComparison.getComparisonData toLowerCase trim numberToString
         selectedCriteria comparison criteria resultsSource = Some view ->
       MetricComparison.criterionName view = selectedCriteria
       /\ List.length (MetricComparison.caseComparisons view)
          = List.length resultsSource
       /\ forall j r,
            nth_error resultsSource j = Some r ->
            exists row,
              nth_error (MetricComparison.caseComparisons view) j = Some row
              /\ CaseComparison.caseName row <> ""%string
              /\ trim (CaseComparison.actualValue row) <> ""%string
              /\ (match MetricComparison.metric_scores r with
                  | Some scores =>
                      Forall (fun ms =>
                                MetricComparison.matchesCriteria toLowerCase trim
                                  (trim (toLowerCase selectedCriteria)) ms
                                = false) scores
                  | None => True
                  end ->
                  CaseComparison.actualValue row = "N/A"%string
                  /\ CaseComparison.score row = 0).
Proof.
  intro Htrim.
  unfold MetricComparison.getComparisonData, Str.truthy.
  rewrite negb_involutive.
  destruct (String.eqb_spec selectedCriteria "") as [->|Hsel].
  { split; [split; auto | discriminate]. }
  destruct resultsSource as [|first rest].
  { split; [split; auto | discriminate]. }
  set (resultsSource := first :: rest).
  replace (List.length resultsSource =? 0)%nat with false by reflexivity.
  split.
  { split; [discriminate | intros [H|H]; [contradiction | discriminate]]. }
  clearbody resultsSource.
  intros view H. injection H as <-.
  cbn [MetricComparison.criterionName MetricComparison.caseComparisons].
  split; [reflexivity|]. split; [apply mapi_length|].
  intros j r Hr. rewrite mapi_nth_error, Hr. cbn [option_map].
  eexists. split; [reflexivity|].
  unfold MetricComparison.caseComparison.
  cbn [CaseComparison.caseName CaseComparison.actualValue CaseComparison.score].
  split; [|split].
  - unfold Str.truthy.
    destruct (String.eqb_spec (case_id (MetricComparison.result r)) "");
      [discriminate | assumption].
  - match goal with
    | |- context [match ?found with Some _ => _ | None => "N/A"%string end] =>
        destruct found as [matchedMetric|]
    end; [|exact Htrim].
    destruct (MetricScore.actual_value matchedMetric) as [|q|s];
      [exact Htrim | |];
      match goal with
      | |- context [Str.truthy ?t] =>
          unfold Str.truthy; destruct (String.eqb_spec t "") as [E|E];
          cbn [negb]; [exact Htrim | exact E]
      end.
  - intro Hnone.
    destruct (MetricComparison.metric_scores r) as [scores|];
      [|split; reflexivity].
    unfold JS.find. rewrite (find_none_Forall _ _ Hnone). split; reflexivity.
Qed.

(** A result whose only metric is another one than the selected, with the
    lower-casing and the trimming of ASCII strings. *)
Lemma metric_comparison_rows_witness :
  let r := {| MetricComparison.result :=
                mkScoreResult "A" (Some 5) (Some 50) None "Not Eligible" [];
              MetricComparison.metric_scores :=
                Some [MetricScore.mk (Some "Profit") (JS.VStr "9") (Some 4)] |} in
  exists view row,
    MetricComparison.getComparisonData JS.toLowerCase Str.trimAscii
      (fun _ => "0"%string) " Revenue " [] [] [r] = Some view
    /\ nth_error (MetricComparison.caseComparisons view) 0 = Some row
    /\ CaseComparison.actualValue row = "N/A"%string
    /\ CaseComparison.score row = 0.
Proof.
  cbv zeta.
  destruct (metric_comparison_rows JS.toLowerCase Str.trimAscii
              (fun _ => "0"%string) " Revenue " [] []
              [{| MetricComparison.result :=
                    mkScoreResult "A" (Some 5) (Some 50) None "Not Eligible" [];
                  MetricComparison.metric_scores :=
                    Some [MetricScore.mk (Some "Profit") (JS.VStr "9") (Some 4)] |}])
    as [_ H]; [vm_compute; discriminate|].
  eexists.
  match goal with
  | |- exists row, ?run /\ _ => assert (E : run) by (cbv; reflexivity)
  end.
  destruct (H _ E) as (_ & _ & Hrow).
  destruct (Hrow 0%nat _ eq_refl) as (row & Hnth & _ & _ & Hna).
  exists row. split; [exact E|]. split; [exact Hnth|].
  apply Hna. repeat constructor.
Defined.

(** ** Processing an uploaded workbook *)

Section ProcessExcelFile.

Variables CriteriaData Case AnalysisResult DashboardData : Type.
Variable getCriteria : string -> string -> FileUpload.Response CriteriaData.
Variable getCases : string -> string -> FileUpload.Response (list Case).
Variable analyze : FileUpload.AnalysisRequest -> FileUpload.Response AnalysisResult.
Variable getDashboard : string -> FileUpload.Response DashboardData.
Variable analysis_id : AnalysisResult -> string.

(** The cases a sheet contributes: those of its response when it is ok. *)
Let readable (file sheet : string) : list Case :=
  match getCases file sheet with
  | FileUpload.Ok casesData => casesData
  | _ => []
  end.

Let process := FileUpload.processExcelFile CriteriaData Case AnalysisResult
                 DashboardData getCriteria getCases analyze getDashboard
                 analysis_id.

Lemma fetch_sent {A : Type} (request : FileUpload.Request)
  (response : FileUpload.Response A) (sent : list FileUpload.Request) :
  FileUpload.fetch request response sent
  = (sent ++ [request],
     match response with
     | FileUpload.Rejected message => FileUpload.Thrown message
     | _ => FileUpload.Done response
     end).
Proof. destruct response; reflexivity. Qed.

Lemma readCases_sent (file : string) (casesSheets : list string)
  (allCases : list Case) (sent : list FileUpload.Request) :
  exists k,
    fst (FileUpload.readCases Case getCases file casesSheets allCases sent)
    = sent ++ map (FileUpload.GetCases file) (firstn k casesSheets).
Proof.
  revert allCases sent.
  induction casesSheets as [|sheet rest IH]; intros allCases sent.
  - exists 0%nat. simpl. now rewrite app_nil_r.
  - cbn [FileUpload.readCases]. unfold FileUpload.andThen.
    rewrite fetch_sent.
    destruct (getCases file sheet) as [casesData|errorText|message].
    + destruct (IH (allCases ++ casesData) (sent ++ [FileUpload.GetCases file sheet]))
        as [k Hk].
      exists (S k). rewrite Hk. cbn [firstn map]. now rewrite <- app_assoc.
    + destruct (IH allCases (sent ++ [FileUpload.GetCases file sheet])) as [k Hk].
      exists (S k). rewrite Hk. cbn [firstn map]. now rewrite <- app_assoc.
    + exists 1%nat. reflexivity.
Qed.

Lemma readCases_done (file : string) (casesSheets : list string)
  (allCases : list Case) (sent trace : list FileUpload.Request)
  (read : list Case) :
  FileUpload.readCases Case getCases file casesSheets allCases sent
  = (trace, FileUpload.Done read) ->
  trace = sent ++ map (FileUpload.GetCases file) casesSheets
  /\ read = allCases ++ List.concat (map (readable file) casesSheets)
  /\ Forall (fun sheet => forall message,
               getCases file sheet <> FileUpload.Rejected message) casesSheets.
Proof.
  revert allCases sent.
  induction casesSheets as [|sheet rest IH]; intros allCases sent H.
  - cbn in H. injection H as <- <-. cbn. now rewrite !app_nil_r.
  - cbn [FileUpload.readCases] in H. unfold FileUpload.andThen in H.
    rewrite fetch_sent in H. unfold readable. cbn [map List.concat].
    destruct (getCases file sheet) as [casesData|errorText|message] eqn:E;
      [| |discriminate].
    + apply IH in H as (-> & -> & Hall).
      rewrite <- !app_assoc. split; [reflexivity|]. split; [reflexivity|].
      constructor; [|exact Hall]. intros m; rewrite E; discriminate.
    + apply IH in H as (-> & -> & Hall).
      rewrite <- !app_assoc. split; [reflexivity|]. split; [reflexivity|].
      constructor; [|exact Hall]. intros m; rewrite E; discriminate.
Qed.

Lemma concat_nonempty {A : Type} (ls : list (list A)) :
  List.concat ls <> [] -> exists l, In l ls /\ l <> [].
Proof.
  induction ls as [|l ls IH]; simpl; [congruence|].
  destruct l as [|x l].
  - intro H. destruct (IH H) as (l' & Hin & Hne). exists l'. auto.
  - intros _. exists (x :: l). split; [now left | discriminate].
Qed.

Ltac step_fetch H :=
  unfold FileUpload.andThen in H; rewrite fetch_sent in H.

(** X19. When [processExcelFile] hands data to [onUpload], the workbook has a
    first sheet whose criteria were read; the cases are those of the
    following sheets that could be read, in sheet order, and there is at
    least one; the analysis was requested for all the following sheets,
    readable or not, and the dashboard for the analysis that came back.
    The requests were sent in this order, each case sheet once. *)
Theorem processExcelFile_uploaded (upload : FileUpload.UploadResult)
  (trace : list FileUpload.Request)
  (uploaded : FileUpload.Uploaded CriteriaData Case AnalysisResult DashboardData) :
  process upload = (trace, FileUpload.Done uploaded) ->
  exists first casesSheets,
    let file := FileUpload.file_id upload in
    let request := {| FileUpload.request_file_id := file;
                      FileUpload.criteria_sheet := first;
                      FileUpload.cases_sheets := casesSheets |} in
    FileUpload.sheets upload = Some (first :: casesSheets)
    /\ FileUpload.uploadResult uploaded = upload
    /\ getCriteria file first = FileUpload.Ok (FileUpload.criteriaData uploaded)
    /\ FileUpload.cases uploaded = List.concat (map (readable file) casesSheets)
    /\ FileUpload.cases uploaded <> []
    /\ analyze request = FileUpload.Ok (FileUpload.analysisResult uploaded)
    /\ FileUpload.uploaded_analysis_id uploaded
       = analysis_id (FileUpload.analysisResult uploaded)
    /\ getDashboard (FileUpload.uploaded_analysis_id uploaded)
       = FileUpload.Ok (FileUpload.dashboardData uploaded)
    /\ trace = FileUpload.GetCriteria file first
               :: map (FileUpload.GetCases file) casesSheets
               ++ [FileUpload.PostAnalyze request;
                   FileUpload.GetDashboard
                     (FileUpload.uploaded_analysis_id uploaded)].
Proof.
  unfold process, FileUpload.processExcelFile, FileUpload.processExcelFileBody.
  intro H.
  destruct (FileUpload.sheets upload) as [[|first casesSheets]|] eqn:Hsheets;
    try discriminate.
  exists first, casesSheets. cbv zeta.
  step_fetch H.
  destruct (getCriteria (FileUpload.file_id upload) first)
    as [criteria|errorText|message] eqn:Hcriteria; try discriminate.
  unfold FileUpload.andThen in H.
  destruct (FileUpload.readCases Case getCases (FileUpload.file_id upload)
              casesSheets [] ([] ++ [FileUpload.GetCriteria
                                       (FileUpload.file_id upload) first]))
    as [sent [read|message]] eqn:Hread; [|discriminate].
  apply readCases_done in Hread as (-> & -> & _).
  cbn [app] in H.
  destruct (List.length (List.concat (map (readable (FileUpload.file_id upload))
                                          casesSheets)) =? 0)%nat eqn:Hlen;
    [discriminate|].
  rewrite fetch_sent in H.
  destruct (analyze _) as [analysis|errorText|message] eqn:Hanalysis;
    try discriminate.
  rewrite fetch_sent in H.
  destruct (getDashboard _) as [dashboard|errorText|message] eqn:Hdashboard;
    try discriminate.
  injection H as <- <-.
  cbn [FileUpload.uploadResult FileUpload.criteriaData FileUpload.cases
       FileUpload.analysisResult FileUpload.dashboardData
       FileUpload.uploaded_analysis_id].
  repeat split; try assumption; try reflexivity.
  - intro E. rewrite E in Hlen. discriminate.
  - cbn [app]. now rewrite <- app_assoc.
Qed.

(** X20. Without sheets nothing is requested. The analysis is only ever
    requested for a workbook from which at least one case was read, and
    then for the first sheet as criteria sheet and all the sheets after it
    as case sheets. *)
Theorem processExcelFile_analysis_needs_cases (upload : FileUpload.UploadResult) :
  (FileUpload.sheets upload = None \/ FileUpload.sheets upload = Some [] ->
   process upload
   = ([], FileUpload.Thrown "No sheets found in the Excel file"))
  /\ forall request,
       In (FileUpload.PostAnalyze request) (fst (process upload)) ->
       exists first casesSheets sheet casesData,
         FileUpload.sheets upload = Some (first :: casesSheets)
         /\ request = {| FileUpload.request_file_id := FileUpload.file_id upload;
                         FileUpload.criteria_sheet := first;
                         FileUpload.cases_sheets := casesSheets |}
         /\ In sheet casesSheets
         /\ getCases (FileUpload.file_id upload) sheet = FileUpload.Ok casesData
         /\ casesData <> [].
Proof.
  unfold process, FileUpload.processExcelFile, FileUpload.processExcelFileBody.
  split.
  { intros [-> | ->]; reflexivity. }
  intros request H.
  destruct (FileUpload.sheets upload) as [[|first casesSheets]|] eqn:Hsheets;
    try contradiction.
  exists first, casesSheets.
  step_fetch H.
  assert (Hno : forall (l : list string) (file : string),
             ~ In (FileUpload.PostAnalyze request)
                  (([] ++ [FileUpload.GetCriteria file first])
                   ++ map (FileUpload.GetCases file) l)).
  { intros l file Hin. cbn [app] in Hin. destruct Hin as [Hin|Hin];
      [discriminate|]. apply in_map_iff in Hin as (x & Hx & _). discriminate. }
  destruct (getCriteria (FileUpload.file_id upload) first)
    as [criteria|errorText|message] eqn:Hcriteria;
    try (cbn in H; destruct H as [H|[]]; discriminate).
  unfold FileUpload.andThen in H.
  pose proof (readCases_sent (FileUpload.file_id upload) casesSheets []
                ([] ++ [FileUpload.GetCriteria (FileUpload.file_id upload) first]))
    as [k Hk].
  destruct (FileUpload.readCases Case getCases (FileUpload.file_id upload)
              casesSheets [] ([] ++ [FileUpload.GetCriteria
                                       (FileUpload.file_id upload) first]))
    as [sent [read|message]] eqn:Hread.
  2:{ cbn [fst] in H, Hk. subst sent. now apply Hno in H. }
  clear Hk. apply readCases_done in Hread as (-> & -> & _).
  cbn [app] in H.
  destruct (List.length (List.concat (map (readable (FileUpload.file_id upload))
                                          casesSheets)) =? 0)%nat eqn:Hlen.
  { cbn [fst FileUpload.throw] in H. exfalso.
    apply (Hno casesSheets (FileUpload.file_id upload)). exact H. }
  assert (Hcases : List.concat (map (readable (FileUpload.file_id upload))
                                    casesSheets) <> [])
    by (intro E; rewrite E in Hlen; discriminate).
  apply concat_nonempty in Hcases as (l & Hl & Hne).
  apply in_map_iff in Hl as (sheet & <- & Hsheet).
  assert (Hok : exists casesData,
             getCases (FileUpload.file_id upload) sheet = FileUpload.Ok casesData
             /\ casesData <> []).
  { unfold readable in Hne.
    destruct (getCases (FileUpload.file_id upload) sheet) as [casesData| |];
      [now exists casesData | congruence | congruence]. }
  destruct Hok as (casesData & Hok & Hdata).
  exists sheet, casesData.
  assert (Hreq : request
                 = {| FileUpload.request_file_id := FileUpload.file_id upload;
                      FileUpload.criteria_sheet := first;
                      FileUpload.cases_sheets := casesSheets |}).
  { rewrite fetch_sent in H.
    assert (Hin : In (FileUpload.PostAnalyze request)
                     ((FileUpload.GetCriteria (FileUpload.file_id upload) first
                       :: map (FileUpload.GetCases (FileUpload.file_id upload))
                              casesSheets)
                      ++ [FileUpload.PostAnalyze
                            {| FileUpload.request_file_id := FileUpload.file_id upload;
                               FileUpload.criteria_sheet := first;
                               FileUpload.cases_sheets := casesSheets |}])
                  \/ exists id, FileUpload.PostAnalyze request
                                = FileUpload.GetDashboard id).
    { destruct (analyze _) as [analysis|errorText|message];
        try (left; exact H).
      rewrite fetch_sent in H.
      assert (Hd : In (FileUpload.PostAnalyze request)
                      (((FileUpload.GetCriteria (FileUpload.file_id upload) first
                         :: map (FileUpload.GetCases (FileUpload.file_id upload))
                                casesSheets)
                        ++ [FileUpload.PostAnalyze
                              {| FileUpload.request_file_id :=
                                   FileUpload.file_id upload;
                                 FileUpload.criteria_sheet := first;
                                 FileUpload.cases_sheets := casesSheets |}])
                       ++ [FileUpload.GetDashboard (analysis_id analysis)]))
        by (destruct (getDashboard (analysis_id analysis)); exact H).
      apply in_app_or in Hd as [Hd|[Hd|[]]]; [now left | right; eauto]. }
    destruct Hin as [Hin|[id Hid]]; [|discriminate].
    apply in_app_or in Hin as [Hin|[Hin|[]]].
    - exfalso. apply (Hno casesSheets (FileUpload.file_id upload)). exact Hin.
    - now injection Hin. }
  auto.
Qed.

End ProcessExcelFile.

Lemma processExcelFile_uploaded_witness :
  let getCases := fun (_ sheet : string) =>
                    if String.eqb sheet "Case 1"
                    then FileUpload.Ok [1%nat]
                    else FileUpload.NotOk "not found" in
  let upload := {| FileUpload.file_id := "f1";
                   FileUpload.sheets := Some ["Criteria"; "Case 1"; "Case 2"]%string |} in
  exists trace uploaded,
    FileUpload.processExcelFile unit nat string unit
      (fun _ _ => FileUpload.Ok tt) getCases (fun _ => FileUpload.Ok "a1"%string)
      (fun _ => FileUpload.Ok tt) (fun a => a) upload
    = (trace, FileUpload.Done uploaded)
    /\ FileUpload.cases uploaded <> []
    /\ FileUpload.cases uploaded = [1%nat].
Proof.
  cbv zeta. do 2 eexists.
  match goal with
  | |- ?run /\ _ => assert (E : run) by (cbv; reflexivity)
  end.
  split; [exact E|]. split; [|reflexivity].
  destruct (processExcelFile_uploaded _ _ _ _ _ _ _ _ _ _ _ _ E)
    as (first & casesSheets & _ & _ & _ & _ & Hne & _).
  exact Hne.
Defined.

(** ** The progress of an upload *)

Lemma run_app (st : FileUpload.State) (l1 l2 : list FileUpload.Event) :
  FileUpload.run st (l1 ++ l2) = FileUpload.run (FileUpload.run st l1) l2.
Proof. apply fold_left_app. Qed.

Lemma repeat_snoc {A : Type} (a : A) (n : nat) :
  repeat a (S n) = repeat a n ++ [a].
Proof. induction n as [|n IH]; simpl; [reflexivity|]. now rewrite <- IH. Qed.

Lemma step_progress_invariant (st : FileUpload.State) (e : FileUpload.Event) :
  (exists k, (k <= 10)%nat /\ FileUpload.uploadProgress st = (10 * k)%nat) ->
  exists k, (k <= 10)%nat
            /\ FileUpload.uploadProgress (FileUpload.step st e) = (10 * k)%nat.
Proof.
  intros (k & Hk & Hp).
  destruct e as [[name|]|id|message|id|message|]; cbn [FileUpload.step].
  - destruct (negb (FileUpload.excelName name)); cbn [FileUpload.uploadProgress];
      [exists k; auto | exists 0%nat; split; [lia | reflexivity]].
  - exists k; auto.
  - destruct (existsb (Nat.eqb id) (FileUpload.intervals st)); [|exists k; auto].
    destruct (90 <=? FileUpload.uploadProgress st)%nat eqn:E;
      cbn [FileUpload.uploadProgress].
    + exists 9%nat. split; [lia | reflexivity].
    + apply Nat.leb_gt in E. exists (S k). split; lia.
  - exists 0%nat. split; [lia | reflexivity].
  - exists 10%nat. split; [lia | reflexivity].
  - exists 0%nat. split; [lia | reflexivity].
  - exists 0%nat. split; [lia | reflexivity].
Qed.

(** X21. Whatever happens to the component, the progress it shows is one of 0,
    10, ..., 100, and a run of the interval callback never takes it above
    90. *)
Theorem upload_progress_invariant (events : list FileUpload.Event) :
  (exists k, (k <= 10)%nat
             /\ FileUpload.uploadProgress (FileUpload.run FileUpload.initial events)
                = (10 * k)%nat)
  /\ forall id,
       let st := FileUpload.run FileUpload.initial events in
       FileUpload.step st (FileUpload.Tick id) = st
       \/ (FileUpload.uploadProgress (FileUpload.step st (FileUpload.Tick id)) <= 90)%nat.
Proof.
  assert (Hinv : exists k, (k <= 10)%nat
                   /\ FileUpload.uploadProgress
                        (FileUpload.run FileUpload.initial events) = (10 * k)%nat).
  { induction events as [|e events IH] using rev_ind.
    - exists 0%nat. split; [lia | reflexivity].
    - rewrite run_app. cbn [FileUpload.run fold_left].
      apply step_progress_invariant. exact IH. }
  split; [exact Hinv|].
  intros id st. destruct Hinv as (k & Hk & Hp). fold st in Hp.
  cbn [FileUpload.step].
  destruct (existsb (Nat.eqb id) (FileUpload.intervals st)); [|now left].
  right. destruct (90 <=? FileUpload.uploadProgress st)%nat eqn:E;
    cbn [FileUpload.uploadProgress]; [lia|].
  apply Nat.leb_gt in E. lia.
Qed.

Lemma ticks_progress (m : nat) (st : FileUpload.State) :
  FileUpload.uploadProgress st = 0%nat ->
  FileUpload.intervals st = [0%nat] ->
  let st' := FileUpload.run st (repeat (FileUpload.Tick 0) m) in
  FileUpload.uploadProgress st' = Nat.min (10 * m) 90
  /\ FileUpload.intervals st' = (if (m <=? 9)%nat then [0%nat] else [])
  /\ FileUpload.error st' = FileUpload.error st
  /\ FileUpload.uploadedFile st' = FileUpload.uploadedFile st.
Proof.
  intros Hp Hi. induction m as [|m IH]; cbn zeta in *.
  - cbn. rewrite Hp, Hi. auto.
  - rewrite repeat_snoc, run_app.
    destruct IH as (IHp & IHi & IHe & IHf).
    set (before := FileUpload.run st (repeat (FileUpload.Tick 0) m)) in *.
    cbn [FileUpload.run fold_left FileUpload.step]. rewrite IHi.
    destruct (m <=? 9)%nat eqn:E9.
    + apply Nat.leb_le in E9. cbn [existsb Nat.eqb orb].
      destruct (90 <=? FileUpload.uploadProgress before)%nat eqn:E;
        cbn [FileUpload.uploadProgress FileUpload.intervals FileUpload.error
             FileUpload.uploadedFile].
      * apply Nat.leb_le in E. assert (m = 9)%nat by lia. subst m.
        repeat split; auto.
      * apply Nat.leb_gt in E.
        assert (Hm : (S m <=? 9)%nat = true) by (apply Nat.leb_le; lia).
        rewrite Hm. repeat split; auto. lia.
    + apply Nat.leb_gt in E9. cbn [existsb].
      assert (Hm : (S m <=? 9)%nat = false) by (apply Nat.leb_gt; lia).
      rewrite Hm. repeat split; auto. lia.
Qed.

Lemma ticks_without_interval (m : nat) (st : FileUpload.State) :
  FileUpload.intervals st = [] ->
  FileUpload.run st (repeat (FileUpload.Tick 0) m) = st.
Proof.
  intro H. induction m as [|m IH]; [reflexivity|].
  cbn [repeat FileUpload.run fold_left FileUpload.step]. rewrite H.
  cbn [existsb]. exact IH.
Qed.

(** X22. An upload that fails within the first nine runs of the interval
    callback leaves the interval set: the progress, put back to 0 with the
    error message, goes up again by 10 at every later run until it stops at
    90, the message still shown. When instead the upload succeeds and the
    processing fails, the interval has been cleared and the progress stays
    at 0. *)
Theorem failed_upload_keeps_ticking (name message : string) (k m : nat) :
  FileUpload.excelName name = true ->
  (k <= 9)%nat ->
  let dropped := FileUpload.run FileUpload.initial
                   (FileUpload.Drop (Some name) :: repeat (FileUpload.Tick 0) k) in
  let failed := FileUpload.step dropped (FileUpload.UploadFailed message) in
  let later := FileUpload.run failed (repeat (FileUpload.Tick 0) m) in
  let processed := FileUpload.run dropped
                     [FileUpload.UploadSucceeded 0; FileUpload.ProcessFailed message] in
  FileUpload.uploadProgress failed = 0%nat
  /\ FileUpload.uploadProgress later = Nat.min (10 * m) 90
  /\ FileUpload.error later = Some message
  /\ FileUpload.uploadedFile later = Some name
  /\ FileUpload.uploadProgress
       (FileUpload.run processed (repeat (FileUpload.Tick 0) m)) = 0%nat.
Proof.
  intros Hname Hk. cbv zeta.
  set (start := FileUpload.step FileUpload.initial (FileUpload.Drop (Some name))).
  assert (Hstart : start = {| FileUpload.uploadProgress := 0;
                              FileUpload.uploadedFile := Some name;
                              FileUpload.error := None;
                              FileUpload.intervals := [0%nat];
                              FileUpload.nextInterval := 1 |}).
  { unfold start. cbn [FileUpload.step]. rewrite Hname. reflexivity. }
  change (FileUpload.run FileUpload.initial
            (FileUpload.Drop (Some name) :: repeat (FileUpload.Tick 0) k))
    with (FileUpload.run start (repeat (FileUpload.Tick 0) k)).
  destruct (ticks_progress k start) as (_ & Hi & _ & Hf);
    [rewrite Hstart; reflexivity | rewrite Hstart; reflexivity |].
  cbv zeta in Hi, Hf.
  assert (E9 : (k <=? 9)%nat = true) by now apply Nat.leb_le.
  rewrite E9 in Hi.
  set (dropped := FileUpload.run start (repeat (FileUpload.Tick 0) k)) in *.
  destruct (ticks_progress m (FileUpload.step dropped (FileUpload.UploadFailed message)))
    as (Hp' & _ & He' & Hf'); [reflexivity | exact Hi |].
  cbv zeta in Hp', He', Hf'.
  split; [reflexivity|]. split; [exact Hp'|]. split; [exact He'|].
  split; [rewrite Hf'; cbn [FileUpload.step FileUpload.uploadedFile];
          rewrite Hf, Hstart; reflexivity|].
  rewrite ticks_without_interval; [reflexivity|].
  cbn [FileUpload.run fold_left FileUpload.step FileUpload.intervals].
  rewrite Hi. reflexivity.
Qed.

Lemma failed_upload_keeps_ticking_witness :
  FileUpload.uploadProgress
    (FileUpload.run
       (FileUpload.step
          (FileUpload.run FileUpload.initial
             (FileUpload.Drop (Some "cases.xlsx"%string)
              :: repeat (FileUpload.Tick 0) 3))
          (FileUpload.UploadFailed "Upload failed: Bad Request"))
       (repeat (FileUpload.Tick 0) 12))
  = 90%nat.
Proof.
  refine (proj1 (proj2 (failed_upload_keeps_ticking
                          "cases.xlsx" "Upload failed: Bad Request" 3 12 _ _))).
  - reflexivity.
  - lia.
Defined.
